(** * Sentipy: the response mapper and the API client of [sentipy.py]

    A shallow embedding of [src/sentipy/sentipy.py].  Python values as the
    JSON decoder produces them are the inductive type [pyval]; a call that
    may raise returns a [result]; the client's single blocking GET goes
    through a transport function and is recorded in a log of requests. *)

From Stdlib Require Import ZArith String Ascii.
From Stdlib.Strings Require Import Byte.
From Stdlib Require Import Floats.SpecFloat.
From stdpp Require Import gmap strings list fin_maps.

Local Open Scope string_scope.
Local Open Scope Z_scope.

(** ** Python values *)

(** What [response.json()] can return: [None], booleans, unbounded
    integers, binary64 floats, strings, lists, and dicts with string keys.
    A dict compares equal regardless of insertion order, hence [gmap]. *)
#[warnings="-register-all"]
Inductive pyval : Type :=
| PNone
| PBool (b : bool)
| PInt (z : Z)
| PFloat (f : spec_float)
| PStr (s : string)
| PList (l : list pyval)
| PDict (d : gmap string pyval).

(** The exceptions the module raises itself ([ValueError], [Exception]) and
    those the interpreter raises inside it. *)
Inductive exn : Type :=
| ValueError (msg : string)
| Exception (arg : pyval)
| AttributeError (attr : string)
| TypeError
| KeyError (key : string)
| UnicodeDecodeError.

Inductive result (A : Type) : Type :=
| Ok (a : A)
| Raise (e : exn).
Arguments Ok {A} a.
Arguments Raise {A} e.

#[global] Instance result_ret : MRet result := fun _ a => Ok a.
#[global] Instance result_bind : MBind result := fun _ _ f m =>
  match m with
  | Ok a => f a
  | Raise e => Raise e
  end.

Fixpoint foldM {A B : Type} (f : B -> A -> result B) (b : B) (l : list A)
  : result B :=
  match l with
  | [] => Ok b
  | x :: l' => b' ← f b x; foldM f b' l'
  end.

Fixpoint mapM {A B : Type} (f : A -> result B) (l : list A)
  : result (list B) :=
  match l with
  | [] => Ok []
  | x :: l' => y ← f x; ys ← mapM f l'; Ok (y :: ys)
  end.

(** ** The interpreter's operations used by the module *)

(** [bool(v)], as the conditional expression [x if v else None] tests it. *)
Definition py_truthy (v : pyval) : bool :=
  match v with
  | PNone => false
  | PBool b => b
  | PInt z => negb (z =? 0)
  | PFloat (S754_zero _) => false
  | PFloat _ => true
  | PStr s => match s with EmptyString => false | String _ _ => true end
  | PList l => match l with [] => false | _ => true end
  | PDict d => negb (bool_decide (d = ∅))
  end.

(** [o.get(k)]: only a dict has the attribute; a missing key gives [None]. *)
Definition py_get (o : pyval) (k : string) : result pyval :=
  match o with
  | PDict d => Ok (default PNone (d !! k))
  | _ => Raise (AttributeError "get")
  end.

(** [o.keys()], a set-like view of a dict's keys. *)
Definition py_keys (o : pyval) : result (gset string) :=
  match o with
  | PDict d => Ok (dom d)
  | _ => Raise (AttributeError "keys")
  end.

(** [o[k]] for a string [k]: [KeyError] on a dict without the key; lists
    and strings want integer indices, the other values are not
    subscriptable. *)
Definition py_getitem (o : pyval) (k : string) : result pyval :=
  match o with
  | PDict d =>
      match d !! k with
      | Some v => Ok v
      | None => Raise (KeyError k)
      end
  | _ => Raise TypeError
  end.

(** [k in o] for a string [k]: key membership on a dict, element equality
    on a list, substring on a string. *)
Definition py_contains (k : string) (o : pyval) : result bool :=
  match o with
  | PDict d => Ok (bool_decide (is_Some (d !! k)))
  | PList l =>
      Ok (existsb (fun v => match v with PStr s => String.eqb s k | _ => false end) l)
  | PStr s => Ok (match String.index 0 k s with Some _ => true | None => false end)
  | _ => Raise TypeError
  end.

(** The characters of a string, one string per code point (strings hold
    their text in UTF-8: the leading byte gives the length). *)
Definition utf8_width (c : ascii) : nat :=
  let n := N_of_ascii c in
  if (n <? 192)%N then 1%nat
  else if (n <? 224)%N then 2%nat
  else if (n <? 240)%N then 3%nat
  else 4%nat.

Fixpoint str_chars_aux (fuel : nat) (s : string) : list string :=
  match fuel, s with
  | S fuel', String c _ =>
      let w := utf8_width c in
      substring 0 w s :: str_chars_aux fuel' (substring w (String.length s - w) s)
  | _, _ => []
  end.

Definition str_chars (s : string) : list string :=
  str_chars_aux (String.length s) s.

(** Iteration, as a comprehension or [set(...)] runs it: the elements of a
    list, the keys of a dict, the characters of a string. *)
Definition py_iter (o : pyval) : result (list pyval) :=
  match o with
  | PList l => Ok l
  | PDict d => Ok (PStr <$> elements (dom d))
  | PStr s => Ok (PStr <$> str_chars s)
  | _ => Raise TypeError
  end.

(** *** Hashable values as dict keys and set elements *)

(** The class of a hashable value under [hash] and [==]: numbers are equal
    across [bool], [int] and [float] exactly when their values are, so a
    number is keyed by its sign, odd mantissa and binary exponent.  The
    decoder hands out one shared [NaN] object, which a lookup finds by
    identity. *)
Inductive hkey : Type :=
| KNone
| KStr (s : string)
| KZero
| KFinite (neg : bool) (m : positive) (e : Z)
| KInf (neg : bool)
| KNan.

#[global] Instance hkey_eq_dec : EqDecision hkey.
Proof. solve_decision. Defined.

Fixpoint odd_part (m : positive) (e : Z) : positive * Z :=
  match m with
  | xO m' => odd_part m' (e + 1)
  | _ => (m, e)
  end.

Definition finite_key (neg : bool) (m : positive) (e : Z) : hkey :=
  let (m', e') := odd_part m e in KFinite neg m' e'.

Definition py_key (v : pyval) : option hkey :=
  match v with
  | PNone => Some KNone
  | PBool true => Some (KFinite false 1 0)
  | PBool false => Some KZero
  | PInt Z0 => Some KZero
  | PInt (Zpos p) => Some (finite_key false p 0)
  | PInt (Zneg p) => Some (finite_key true p 0)
  | PFloat (S754_zero _) => Some KZero
  | PFloat (S754_infinity s) => Some (KInf s)
  | PFloat S754_nan => Some KNan
  | PFloat (S754_finite s m e) => Some (finite_key s m e)
  | PStr s => Some (KStr s)
  | PList _ => None
  | PDict _ => None
  end.

(** A dict with keys of any hashable type, in insertion order. *)
Definition pydict : Type := list (pyval * pyval).

(** [d[k] = v] on a key already checked hashable with class [c]: an equal
    key keeps its slot and its first key object, and takes the new value. *)
Fixpoint dict_store (c : hkey) (k v : pyval) (d : pydict) : pydict :=
  match d with
  | [] => [(k, v)]
  | (k', v') :: d' =>
      if bool_decide (py_key k' = Some c) then (k', v) :: d'
      else (k', v') :: dict_store c k v d'
  end.

Definition dict_setitem (k v : pyval) (d : pydict) : result pydict :=
  match py_key k with
  | Some c => Ok (dict_store c k v d)
  | None => Raise TypeError
  end.

(** [d.get(k)] on such a dict, [None] standing for a missing key. *)
Fixpoint dict_lookup (c : hkey) (d : pydict) : option pyval :=
  match d with
  | [] => None
  | (k', v') :: d' =>
      if bool_decide (py_key k' = Some c) then Some v' else dict_lookup c d'
  end.

(** A set of hashable values, in insertion order. *)
Definition pyset : Type := list pyval.

Fixpoint set_store (c : hkey) (k : pyval) (s : pyset) : pyset :=
  match s with
  | [] => [k]
  | k' :: s' =>
      if bool_decide (py_key k' = Some c) then k' :: s'
      else k' :: set_store c k s'
  end.

Definition set_add (s : pyset) (k : pyval) : result pyset :=
  match py_key k with
  | Some c => Ok (set_store c k s)
  | None => Raise TypeError
  end.

(** [set(o)] *)
Definition py_set (o : pyval) : result pyset :=
  items ← py_iter o; foldM set_add [] items.

(** [b.decode("utf-8")]: the strict decoder accepts exactly the well-formed
    sequences (no overlong forms, no surrogates, nothing above U+10FFFF). *)
Definition in_range (lo hi : N) (b : byte) : bool :=
  ((lo <=? Byte.to_N b) && (Byte.to_N b <=? hi))%N.

Fixpoint utf8_valid (bs : list byte) : bool :=
  match bs with
  | [] => true
  | b0 :: r0 =>
      if in_range 0 127 b0 then utf8_valid r0
      else
        match r0 with
        | [] => false
        | b1 :: r1 =>
            if in_range 194 223 b0 then in_range 128 191 b1 && utf8_valid r1
            else
              match r1 with
              | [] => false
              | b2 :: r2 =>
                  if in_range 224 239 b0 then
                    (if in_range 224 224 b0 then in_range 160 191 b1
                     else if in_range 237 237 b0 then in_range 128 159 b1
                     else in_range 128 191 b1)
                    && in_range 128 191 b2 && utf8_valid r2
                  else
                    match r2 with
                    | [] => false
                    | b3 :: r3 =>
                        in_range 240 244 b0
                        && (if in_range 240 240 b0 then in_range 144 191 b1
                            else if in_range 244 244 b0 then in_range 128 143 b1
                            else in_range 128 191 b1)
                        && in_range 128 191 b2 && in_range 128 191 b3
                        && utf8_valid r3
                    end
              end
        end
  end.

Definition bytes_decode_utf8 (bs : list byte) : result string :=
  if utf8_valid bs then Ok (string_of_list_byte bs)
  else Raise UnicodeDecodeError.

(** ** The response mapper *)

Module SocialData.
Record t : Type := mk {
  mentions : pyval;
  sentiment : pyval;
  relative_hype : pyval
}.

(** [SocialData.__init__(self, results, platform)] *)
Definition init (results : pyval) (platform : string) : result t :=
  mentions ← py_get results (platform ++ "_mentions")%string;
  sentiment ← py_get results (platform ++ "_sentiment")%string;
  relative_hype ← py_get results (platform ++ "_relative_hype")%string;
  Ok (mk mentions sentiment relative_hype).
End SocialData.

Module Subreddit.
Record t : Type := mk {
  mentions : pyval;
  sentiment : pyval
}.
End Subreddit.

Module Reddit.
Record t : Type := mk {
  posts : SocialData.t;
  comments : SocialData.t;
  subreddits : option (gmap string Subreddit.t)
}.
End Reddit.

Module TickerData.
Record t : Type := mk {
  symbol : pyval;
  sentiment : pyval;
  AHI : pyval;
  RHI : pyval;
  SGP : pyval
}.

(** [TickerData.__init__(self, symbol, results)]: the loop over the four
    field names, unrolled. *)
Definition init (symbol : pyval) (results : pyval) : result t :=
  sentiment ← py_get results "sentiment";
  AHI ← py_get results "AHI";
  RHI ← py_get results "RHI";
  SGP ← py_get results "SGP";
  Ok (mk symbol sentiment AHI RHI SGP).
End TickerData.

Module QuoteData.
Record t : Type := mk {
  base : TickerData.t;
  reddit_data : Reddit.t;
  tweets : SocialData.t;
  stocktwits_posts : SocialData.t;
  yahoo_finance_comments : SocialData.t
}.

(** One step of the dict comprehension: the entry for [subreddit_name]. *)
Definition subreddit_entry (mentions sentiment : pyval)
    (acc : gmap string Subreddit.t) (subreddit_name : string)
  : result (gmap string Subreddit.t) :=
  m ← py_getitem mentions subreddit_name;
  s ← py_getitem sentiment subreddit_name;
  Ok (<[subreddit_name := Subreddit.mk m s]> acc).

(** Lines 90-100: [None] unless ['subreddits' in results]; then the
    comprehension over [mentions.keys() & sentiment.keys()]. *)
Definition subreddits_processed (results : pyval)
  : result (option (gmap string Subreddit.t)) :=
  has ← py_contains "subreddits" results;
  if has : bool then
    subreddits ← py_get results "subreddits";
    mentions ← py_get subreddits "reddit_subreddit_mentions";
    sentiment ← py_get subreddits "reddit_subreddit_sentiment";
    mentions_keys ← py_keys mentions;
    sentiment_keys ← py_keys sentiment;
    processed ← foldM (subreddit_entry mentions sentiment) ∅
                 (elements (mentions_keys ∩ sentiment_keys));
    Ok (Some processed)
  else Ok None.

(** [QuoteData.__init__(self, symbol, results)] *)
Definition init (symbol : pyval) (results : pyval) : result t :=
  base ← TickerData.init symbol results;
  tweets ← SocialData.init results "tweet";
  stocktwits_posts ← SocialData.init results "stocktwits_post";
  yahoo_finance_comments ← SocialData.init results "yahoo_finance_comment";
  subs ← subreddits_processed results;
  posts ← SocialData.init results "reddit_post";
  comments ← SocialData.init results "reddit_comment";
  Ok (mk base (Reddit.mk posts comments subs)
         tweets stocktwits_posts yahoo_finance_comments).
End QuoteData.

(** ** The API client *)

(** What [requests.get(url, params)] is given and what it hands back. *)
Record Request : Type := mkRequest {
  url : string;
  params : gmap string pyval
}.

(** [json] is [None] when [response.json()] raises [JSONDecodeError]. *)
Record Response : Type := mkResponse {
  content : list byte;
  text : string;
  json : option pyval;
  status_code : Z
}.

(** [response.ok]: the status is neither a client nor a server error. *)
Definition ok (r : Response) : bool :=
  negb ((400 <=? status_code r) && (status_code r <? 600)).

(** A computation of the client: given the transport it returns the
    requests it sent, in order, and its outcome. *)
Definition IO (A : Type) : Type :=
  (Request -> Response) -> list Request * result A.

#[global] Instance IO_ret : MRet IO := fun _ a _ => ([], Ok a).
#[global] Instance IO_bind : MBind IO := fun _ _ f m net =>
  match m net with
  | (sent, Ok a) => let (sent', r) := f a net in ((sent ++ sent')%list, r)
  | (sent, Raise e) => (sent, Raise e)
  end.

Definition lift {A : Type} (r : result A) : IO A := fun _ => ([], r).

Definition requests_get (url : string) (params : gmap string pyval)
  : IO Response :=
  fun net => let rq := mkRequest url params in ([rq], Ok (net rq)).

Definition sent {A : Type} (run : list Request * result A) : list Request :=
  fst run.
Definition outcome {A : Type} (run : list Request * result A) : result A :=
  snd run.

Module Sentipy.
Record t : Type := mk {
  token : string;
  key : string
}.

Definition base_url : string := "https://api.sentimentinvestor.com/v4/".

(** [Sentipy.__init__(self, token=None, key=None)] *)
Definition init (token key : option string) : result t :=
  match token, key with
  | Some token, Some key => Ok (mk token key)
  | _, _ =>
      Raise (ValueError
        "Please provide a token and key - these can be obtained at https://sentimentinvestor.com/developer/dashboard")
  end.

(** [Sentipy.__base_request(self, endpoint, params=None)] *)
Definition base_request (self : t) (endpoint : string)
    (params : option (gmap string pyval)) : IO pyval :=
  let params := default ∅ params in
  let url := (base_url ++ endpoint)%string in
  let params := <["token" := PStr (token self)]> params in
  let params := <["key" := PStr (key self)]> params in
  response ← requests_get url params;
  body ← lift (bytes_decode_utf8 (content response));
  if String.eqb body "invalid_parameter" then
    lift (Raise (ValueError "Incorrect key or token"))
  else
    body ← lift (bytes_decode_utf8 (content response));
    if String.eqb body "incorrect_key" then
      lift (Raise (ValueError "Incorrect key or token"))
    else
      match json response with
      | None => lift (Raise (Exception (PStr (text response))))
      | Some json =>
          if ok response then mret json
          else
            message ← lift (py_get json "message");
            lift (Raise (Exception message))
      end.

(** [Sentipy.parsed(self, symbol)] *)
Definition parsed (self : t) (symbol : string) : IO (option TickerData.t) :=
  let params := {[ "symbol" := PStr symbol ]} in
  response ← base_request self "parsed" (Some params);
  lift (success ← py_get response "success";
        if py_truthy success then
          sym ← py_get response "symbol";
          results ← py_get response "results";
          data ← TickerData.init sym results;
          Ok (Some data)
        else Ok None).

(** The return expression of [raw] and [quote]. *)
Definition quote_of (response : pyval) : result (option QuoteData.t) :=
  success ← py_get response "success";
  if py_truthy success then
    sym ← py_get response "symbol";
    results ← py_get response "results";
    data ← QuoteData.init sym results;
    Ok (Some data)
  else Ok None.

(** [Sentipy.raw(self, symbol)] *)
Definition raw (self : t) (symbol : string) : IO (option QuoteData.t) :=
  let params := {[ "symbol" := PStr symbol ]} in
  response ← base_request self "raw" (Some params);
  lift (quote_of response).

(** [Sentipy.quote(self, symbol, enrich=False)] *)
Definition quote (self : t) (symbol : string) (enrich : bool)
  : IO (option QuoteData.t) :=
  let params := <["enrich" := PBool enrich]> {[ "symbol" := PStr symbol ]} in
  response ← base_request self "quote" (Some params);
  lift (quote_of response).

(** The return expression of [sort], [bulk] and [all]: the list
    comprehension over [response.get("results")]. *)
Definition tickers_of (response : pyval) : result (option (list TickerData.t)) :=
  success ← py_get response "success";
  if py_truthy success then
    results ← py_get response "results";
    stocks ← py_iter results;
    data ← mapM (fun stock =>
                   sym ← py_get stock "symbol";
                   TickerData.init sym stock) stocks;
    Ok (Some data)
  else Ok None.

(** [Sentipy.sort(self, metric, limit)] *)
Definition sort (self : t) (metric : string) (limit : Z)
  : IO (option (list TickerData.t)) :=
  let params := <["limit" := PInt limit]> {[ "metric" := PStr metric ]} in
  response ← base_request self "sort" (Some params);
  lift (tickers_of response).

(** One step of the dict comprehension of [historical]. *)
Definition data_point (acc : pydict) (dp : pyval) : result pydict :=
  timestamp ← py_get dp "timestamp";
  data ← py_get dp "data";
  dict_setitem timestamp data acc.

(** [Sentipy.historical(self, symbol, metric, start, end)] *)
Definition historical (self : t) (symbol metric : string) (start end_ : Z)
  : IO (option pydict) :=
  let params :=
    <["end" := PInt end_]> (<["start" := PInt start]>
      (<["metric" := PStr metric]> {[ "symbol" := PStr symbol ]})) in
  response ← base_request self "historical" (Some params);
  lift (success ← py_get response "success";
        if py_truthy success then
          results ← py_get response "results";
          dps ← py_iter results;
          d ← foldM data_point [] dps;
          Ok (Some d)
        else Ok None).

(** [Sentipy.bulk(self, symbols, enrich=False)]; [String.concat ","] is
    [",".join] on a list of strings. *)
Definition bulk (self : t) (symbols : list string) (enrich : bool)
  : IO (option (list TickerData.t)) :=
  let params :=
    <["enrich" := PBool enrich]> {[ "symbols" := PStr (String.concat "," symbols) ]} in
  response ← base_request self "bulk" (Some params);
  lift (tickers_of response).

(** [Sentipy.all(self, enrich=False)] *)
Definition all (self : t) (enrich : bool) : IO (option (list TickerData.t)) :=
  let params := {[ "enrich" := PBool enrich ]} in
  response ← base_request self "all" (Some params);
  lift (tickers_of response).

(** [Sentipy.supported(self, symbol)] *)
Definition supported (self : t) (symbol : string) : IO pyval :=
  response ← base_request self "supported" (Some {[ "symbol" := PStr symbol ]});
  lift (success ← py_get response "success";
        if py_truthy success then py_get response "result"
        else Ok PNone).

(** [Sentipy.all_stocks(self)] *)
Definition all_stocks (self : t) : IO (option pyset) :=
  response ← base_request self "all-stocks" None;
  lift (success ← py_get response "success";
        if py_truthy success then
          results ← py_get response "results";
          s ← py_set results;
          Ok (Some s)
        else Ok None).
End Sentipy.

(** ** Specification-side vocabulary *)

(** [d.get(k)] as a total function on a mapping: the value when the key
    exists, [None] otherwise. *)
Definition field (d : gmap string pyval) (k : string) : pyval :=
  match d !! k with
  | Some v => v
  | None => PNone
  end.

(** The request [__base_request] sends for an endpoint and the caller's
    parameters. *)
Definition request_of (self : Sentipy.t) (endpoint : string)
    (params : option (gmap string pyval)) : Request :=
  mkRequest (Sentipy.base_url ++ endpoint)%string
            (<["key" := PStr (Sentipy.key self)]>
               (<["token" := PStr (Sentipy.token self)]> (default ∅ params))).

(** The binary64 values nearest to the decimal literals of the examples. *)
Definition float_0_5 : spec_float := S754_finite false 4503599627370496 (-53).
Definition float_0_1 : spec_float := S754_finite false 7205759403792794 (-56).
Definition float_1618057166_5 : spec_float :=
  S754_finite false 6786623645679616 (-22).
Definition float_5_9e_05 : spec_float :=
  S754_finite false 8706863202790908 (-67).

(** The mapping of the subreddit example: [mentions = {"a": 1, "b": 2}],
    [sentiment = {"b": 0.5, "c": 0.1}]. *)
Definition example_mentions : gmap string pyval :=
  {[ "a" := PInt 1; "b" := PInt 2 ]}.
Definition example_sentiment : gmap string pyval :=
  {[ "b" := PFloat float_0_5; "c" := PFloat float_0_1 ]}.
Definition example_enriched : gmap string pyval :=
  {[ "subreddits" :=
       PDict {[ "reddit_subreddit_mentions" := PDict example_mentions;
                "reddit_subreddit_sentiment" := PDict example_sentiment ]} ]}.

(** A result mapping whose [subreddits] sub-mapping has neither of the two
    sub-mappings, as the service sends it (the docstring of [sort] prints
    ['subreddits': {'symbol': 'AMC'}]). *)
Definition example_bare_subreddits : gmap string pyval :=
  {[ "subreddits" := PDict {[ "symbol" := PStr "AMC" ]} ]}.

(** Every request a run sent was answered with a response satisfying [P]. *)
Definition every_response {A : Type} (net : Request -> Response)
    (run : IO A) (P : Response -> Prop) : Prop :=
  forall rq, rq ∈ sent (run net) -> P (net rq).

(** A transport that answers every request with the same response. *)
Definition always (r : Response) : Request -> Response := fun _ => r.

Definition example_client : Sentipy.t := Sentipy.mk "my-token" "my-key".

(** A JSON text written with apostrophes for its double quotes. *)
Fixpoint json_quotes (s : string) : string :=
  match s with
  | EmptyString => EmptyString
  | String c s' =>
      String (if Ascii.eqb c "'" then "034" else c)%char (json_quotes s')
  end.

(** The response with status 200 whose body is the JSON text [body] and
    whose decoding is the mapping [reply]. *)
Definition reply_200 (body : string) (reply : gmap string pyval) : Response :=
  mkResponse (list_byte_of_string (json_quotes body)) (json_quotes body)
             (Some (PDict reply)) 200.

(** The reply [{"success": false}]. *)
Definition no_data : gmap string pyval := {[ "success" := PBool false ]}.
Definition no_data_response : Response :=
  reply_200 "{'success': false}" no_data.

(** A successful reply to [quote] whose results carry the bare
    [subreddits] sub-mapping. *)
Definition bare_reply : gmap string pyval :=
  {[ "success" := PBool true; "symbol" := PStr "AMC";
     "results" := PDict example_bare_subreddits ]}.
Definition bare_response : Response :=
  reply_200
    "{'success': true, 'symbol': 'AMC', 'results': {'subreddits': {'symbol': 'AMC'}}}"
    bare_reply.

(** The response body is exactly the text [s]. *)
Definition body_is (s : string) (r : Response) : Prop :=
  content r = list_byte_of_string s.

(** The body is neither of the two credential-failure strings and does
    not decode as JSON. *)
Definition not_json (r : Response) : Prop :=
  ~ body_is "invalid_parameter" r /\ ~ body_is "incorrect_key" r /\
  json r = None.

(** The same for a body that is well-formed UTF-8. *)
Definition text_not_json (r : Response) : Prop :=
  exists body,
    bytes_decode_utf8 (content r) = Ok body /\
    body <> "invalid_parameter" /\ body <> "incorrect_key" /\
    json r = None.

(** The run sent one request and raised [Exception(response.text)]. *)
Definition raises_response_text {A : Type} (net : Request -> Response)
    (run : IO A) : Prop :=
  exists rq,
    sent (run net) = [rq] /\
    outcome (run net) = Raise (Exception (PStr (text (net rq)))).

(** The bare string [incorrect_key] sent with status 200, and with a
    server-error status. *)
Definition denied_response (status : Z) : Response :=
  mkResponse (list_byte_of_string "incorrect_key") "incorrect_key" None status.

(** An HTML error page sent with status 200. *)
Definition html_response : Response :=
  mkResponse (list_byte_of_string "<html>Bad Gateway</html>")
             "<html>Bad Gateway</html>" None 200.

(** A body of the one byte 0xFF, which is not UTF-8, with status 200; its
    [text] is the replacement character U+FFFD. *)
Definition garbled_response : Response :=
  mkResponse [xff] (String "239" (String "191" (String "189" EmptyString)))
             None 200.

(** The outcome is a list with one record per entry of the response's
    results, in the same order, the i-th built by [TickerData.__init__]
    from the i-th entry and that entry's own ['symbol']. *)
Definition tickers_in_order (entries : list (gmap string pyval))
    (out : result (option (list TickerData.t))) : Prop :=
  exists data,
    out = Ok (Some data) /\
    length data = length entries /\
    forall (i : nat) stock,
      entries !! i = Some stock ->
      exists r,
        data !! i = Some r /\
        TickerData.init (field stock "symbol") (PDict stock) = Ok r /\
        TickerData.symbol r = field stock "symbol".

(** A ranking of two stocks as the service returns it, and its reply. *)
Definition example_ranking : list (gmap string pyval) :=
  [ {[ "symbol" := PStr "TSLA"; "AHI" := PFloat float_0_5 ]};
    {[ "symbol" := PStr "AAPL"; "AHI" := PFloat float_0_1 ]} ].
Definition ranking_reply : gmap string pyval :=
  {[ "success" := PBool true; "results" := PList (PDict <$> example_ranking) ]}.
Definition ranking_response : Response :=
  reply_200
    "{'success': true, 'results': [{'symbol': 'TSLA', 'AHI': 0.5}, {'symbol': 'AAPL', 'AHI': 0.1}]}"
    ranking_reply.

(** A reply to [parsed], [raw] and [quote] whose envelope names the symbol
    in upper case; and one whose envelope has no ['symbol']. *)
Definition quote_reply : gmap string pyval :=
  {[ "success" := PBool true; "symbol" := PStr "AAPL";
     "results" := PDict {[ "AHI" := PFloat float_0_5 ]} ]}.
Definition quote_response : Response :=
  reply_200 "{'success': true, 'symbol': 'AAPL', 'results': {'AHI': 0.5}}"
            quote_reply.
Definition anonymous_reply : gmap string pyval :=
  {[ "success" := PBool true;
     "results" := PDict {[ "AHI" := PFloat float_0_5 ]} ]}.
Definition anonymous_response : Response :=
  reply_200 "{'success': true, 'results': {'AHI': 0.5}}" anonymous_reply.

(** The data of the last entry whose timestamp is in the class [c]. *)
Fixpoint latest (c : hkey) (entries : list (gmap string pyval))
  : option pyval :=
  match entries with
  | [] => None
  | e :: entries' =>
      match latest c entries' with
      | Some v => Some v
      | None =>
          if bool_decide (py_key (field e "timestamp") = Some c)
          then Some (field e "data")
          else None
      end
  end.

(** [d] is the mapping from timestamp to data of the entries: its keys are
    pairwise different, each is the timestamp of an entry, and a timestamp
    maps to the data of the last entry that has it. *)
Definition timestamp_mapping (entries : list (gmap string pyval))
    (d : pydict) : Prop :=
  NoDup ((fun kv => py_key kv.1) <$> d) /\
  (forall k v, (k, v) ∈ d ->
     exists e, e ∈ entries /\ k = field e "timestamp") /\
  (forall c, dict_lookup c d = latest c entries).

(** The reply of the historical example, and one in which a timestamp
    comes twice, once as the integer 1618057166 and once as a float of the
    same value. *)
Definition history_reply : gmap string pyval :=
  {[ "success" := PBool true;
     "results" :=
       PList [ PDict {[ "timestamp" := PFloat float_1618057166_5;
                        "data" := PFloat float_5_9e_05 ]} ] ]}.
Definition history_response : Response :=
  reply_200
    "{'success': true, 'results': [{'timestamp': 1618057166.5, 'data': 5.9e-05}]}"
    history_reply.

Definition repeated_entries : list (gmap string pyval) :=
  [ {[ "timestamp" := PInt 1618057166; "data" := PFloat float_0_1 ]};
    {[ "timestamp" := PFloat float_1618057166_5; "data" := PFloat float_5_9e_05 ]};
    {[ "timestamp" := PFloat (S754_finite false 6786623643582464 (-22));
       "data" := PFloat float_0_5 ]} ].
Definition repeated_reply : gmap string pyval :=
  {[ "success" := PBool true; "results" := PList (PDict <$> repeated_entries) ]}.
Definition repeated_response : Response :=
  reply_200
    "{'success': true, 'results': [{'timestamp': 1618057166, 'data': 0.1}, {'timestamp': 1618057166.5, 'data': 5.9e-05}, {'timestamp': 1618057166.0, 'data': 0.5}]}"
    repeated_reply.

(** What [__base_request] does with the response to its one request. *)
Definition checked (r : Response) : result pyval :=
  match bytes_decode_utf8 (content r) with
  | Raise e => Raise e
  | Ok body =>
      if String.eqb body "invalid_parameter" || String.eqb body "incorrect_key"
      then Raise (ValueError "Incorrect key or token")
      else
        match json r with
        | None => Raise (Exception (PStr (text r)))
        | Some j =>
            if ok r then Ok j
            else match py_get j "message" with
                 | Ok message => Raise (Exception message)
                 | Raise e => Raise e
                 end
        end
  end.

(** A statement [Q] about each of the nine public operations, whatever
    its arguments. *)
Definition every_public_operation (self : Sentipy.t)
    (Q : forall A : Type, IO A -> Prop) : Prop :=
  (forall symbol, Q _ (Sentipy.parsed self symbol)) /\
  (forall symbol, Q _ (Sentipy.raw self symbol)) /\
  (forall symbol enrich, Q _ (Sentipy.quote self symbol enrich)) /\
  (forall metric limit, Q _ (Sentipy.sort self metric limit)) /\
  (forall symbol metric start end_,
     Q _ (Sentipy.historical self symbol metric start end_)) /\
  (forall symbols enrich, Q _ (Sentipy.bulk self symbols enrich)) /\
  (forall enrich, Q _ (Sentipy.all self enrich)) /\
  (forall symbol, Q _ (Sentipy.supported self symbol)) /\
  Q _ (Sentipy.all_stocks self).

(** The same about the request mechanics too, whatever the endpoint and
    the parameters. *)
Definition every_operation (self : Sentipy.t)
    (Q : forall A : Type, IO A -> Prop) : Prop :=
  (forall endpoint params, Q _ (Sentipy.base_request self endpoint params)) /\
  every_public_operation self Q.

(** The response passes every check of [__base_request] and decodes to
    [j]: a UTF-8 body that is neither credential-failure string, valid
    JSON, a status that is no error. *)
Definition accepted (j : pyval) (r : Response) : Prop :=
  exists body,
    bytes_decode_utf8 (content r) = Ok body /\
    body <> "invalid_parameter" /\ body <> "incorrect_key" /\
    json r = Some j /\ ok r = true.

(** The response decodes to [j] but carries an error status. *)
Definition refused (j : pyval) (r : Response) : Prop :=
  exists body,
    bytes_decode_utf8 (content r) = Ok body /\
    body <> "invalid_parameter" /\ body <> "incorrect_key" /\
    json r = Some j /\ ok r = false.

(** An error reply of the service, sent with status 404. *)
Definition error_reply : gmap string pyval :=
  {[ "message" := PStr "Symbol not found" ]}.
Definition error_response : Response :=
  mkResponse (list_byte_of_string (json_quotes "{'message': 'Symbol not found'}"))
             (json_quotes "{'message': 'Symbol not found'}")
             (Some (PDict error_reply)) 404.

(** Replies accepted by the request mechanics that are not what an
    operation expects: a mapping without ['success'], a JSON list, and a
    successful envelope without ['results']. *)
Definition empty_reply : gmap string pyval := ∅.
Definition empty_response : Response := reply_200 "{}" empty_reply.
Definition list_response : Response :=
  mkResponse (list_byte_of_string "[]") "[]" (Some (PList [])) 200.
Definition hollow_reply : gmap string pyval :=
  {[ "success" := PBool true; "symbol" := PStr "AAPL" ]}.
Definition hollow_response : Response :=
  reply_200 "{'success': true, 'symbol': 'AAPL'}" hollow_reply.

(** A reply to [supported]. *)
Definition supported_reply : gmap string pyval :=
  {[ "success" := PBool true; "result" := PBool true ]}.
Definition supported_response : Response :=
  reply_200 "{'success': true, 'result': true}" supported_reply.

(** The outcome on a results list [l]: the whole list of records when
    every element is a mapping, and [AttributeError] otherwise, never a
    part of the list. *)
Definition all_or_nothing (l : list pyval)
    (out : result (option (list TickerData.t))) : Prop :=
  (Forall (fun v => exists d, v = PDict d) l ->
   exists data, out = Ok (Some data) /\ length data = length l) /\
  (~ Forall (fun v => exists d, v = PDict d) l ->
   out = Raise (AttributeError "get")).

(** A reply whose results list has a [null] between two stocks. *)
Definition holed_results : list pyval :=
  [ PDict {[ "symbol" := PStr "TSLA" ]}; PNone;
    PDict {[ "symbol" := PStr "AAPL" ]} ].
Definition holed_reply : gmap string pyval :=
  {[ "success" := PBool true; "results" := PList holed_results ]}.
Definition holed_response : Response :=
  reply_200
    "{'success': true, 'results': [{'symbol': 'TSLA'}, null, {'symbol': 'AAPL'}]}"
    holed_reply.

(** A reply to [historical] with a list where a timestamp should be, and
    a reply to [all_stocks] that names a symbol twice. *)
Definition unhashable_entries : list (gmap string pyval) :=
  [ {[ "timestamp" := PInt 1618057166; "data" := PFloat float_0_1 ]};
    {[ "timestamp" := PList [PInt 1618057166]; "data" := PFloat float_0_5 ]} ].
Definition unhashable_reply : gmap string pyval :=
  {[ "success" := PBool true; "results" := PList (PDict <$> unhashable_entries) ]}.
Definition unhashable_response : Response :=
  reply_200
    "{'success': true, 'results': [{'timestamp': 1618057166, 'data': 0.1}, {'timestamp': [1618057166], 'data': 0.5}]}"
    unhashable_reply.

Definition stocks_reply : gmap string pyval :=
  {[ "success" := PBool true;
     "results" := PList (PStr <$> ["AAPL"; "TSLA"; "AAPL"]) ]}.
Definition stocks_response : Response :=
  reply_200 "{'success': true, 'results': ['AAPL', 'TSLA', 'AAPL']}"
            stocks_reply.

(** ** Basic facts about the two monads *)

Lemma outcome_bind {A B : Type} (m : IO A) (f : A -> IO B) net :
  outcome ((m ≫= f) net) =
  match outcome (m net) with
  | Ok a => outcome (f a net)
  | Raise e => Raise e
  end.
Proof.
  unfold outcome, mbind, IO_bind.
  destruct (m net) as [log [a|e]]; simpl; [|reflexivity].
  destruct (f a net); reflexivity.
Qed.

Lemma sent_bind {A B : Type} (m : IO A) (f : A -> IO B) net :
  sent ((m ≫= f) net) =
  match outcome (m net) with
  | Ok a => (sent (m net) ++ sent (f a net))%list
  | Raise e => sent (m net)
  end.
Proof.
  unfold sent, outcome, mbind, IO_bind.
  destruct (m net) as [log [a|e]]; simpl; [|reflexivity].
  destruct (f a net); reflexivity.
Qed.

Lemma bind_Ok {A B : Type} (a : A) (f : A -> result B) : (Ok a ≫= f) = f a.
Proof. reflexivity. Qed.

Lemma bind_Raise {A B : Type} (e : exn) (f : A -> result B) :
  (Raise e ≫= f) = Raise e.
Proof. reflexivity. Qed.

Lemma outcome_lift {A : Type} (r : result A) net : outcome (lift r net) = r.
Proof. reflexivity. Qed.

Lemma sent_lift {A : Type} (r : result A) net : sent (lift r net) = [].
Proof. reflexivity. Qed.

Lemma py_get_dict (d : gmap string pyval) (k : string) :
  py_get (PDict d) k = Ok (field d k).
Proof. unfold py_get, field. destruct (d !! k); reflexivity. Qed.

(** ** The response mapper *)

Lemma SocialData_init_dict (d : gmap string pyval) (p : string) :
  SocialData.init (PDict d) p =
  Ok (SocialData.mk (field d (p ++ "_mentions")%string)
                    (field d (p ++ "_sentiment")%string)
                    (field d (p ++ "_relative_hype")%string)).
Proof. unfold SocialData.init. rewrite !py_get_dict. reflexivity. Qed.

Lemma TickerData_init_dict (symbol : pyval) (d : gmap string pyval) :
  TickerData.init symbol (PDict d) =
  Ok (TickerData.mk symbol (field d "sentiment") (field d "AHI")
                    (field d "RHI") (field d "SGP")).
Proof. unfold TickerData.init. rewrite !py_get_dict. reflexivity. Qed.

(** C7. For every flat mapping [fields] and platform prefix [p], building
    the [SocialData] succeeds (a missing key raises nothing) and its
    [mentions] is [fields[p + "_mentions"]] when that key exists and [None]
    otherwise; likewise [sentiment] from [p + "_sentiment"] and
    [relative_hype] from [p + "_relative_hype"]. *)
Theorem social_data_extraction (fields : gmap string pyval) (p : string) :
  exists sd : SocialData.t,
    SocialData.init (PDict fields) p = Ok sd /\
    SocialData.mentions sd =
      match fields !! (p ++ "_mentions")%string with
      | Some v => v
      | None => PNone
      end /\
    SocialData.sentiment sd =
      match fields !! (p ++ "_sentiment")%string with
      | Some v => v
      | None => PNone
      end /\
    SocialData.relative_hype sd =
      match fields !! (p ++ "_relative_hype")%string with
      | Some v => v
      | None => PNone
      end.
Proof.
  eexists. split; [apply SocialData_init_dict|].
  simpl. unfold field. auto.
Qed.

Lemma subreddit_entry_both (m s : gmap string pyval) acc (x : string) a b :
  m !! x = Some a -> s !! x = Some b ->
  QuoteData.subreddit_entry (PDict m) (PDict s) acc x =
  Ok (<[x := Subreddit.mk a b]> acc).
Proof.
  intros Ha Hb. unfold QuoteData.subreddit_entry, py_getitem.
  rewrite Ha, Hb. reflexivity.
Qed.

(** The comprehension over a list of names that both mappings have: no
    [KeyError], and every listed name gets its pair. *)
Lemma subreddit_fold (m s : gmap string pyval) (names : list string) :
  forall acc : gmap string Subreddit.t,
    (forall n, n ∈ names -> is_Some (m !! n) /\ is_Some (s !! n)) ->
    exists out,
      foldM (QuoteData.subreddit_entry (PDict m) (PDict s)) acc names = Ok out /\
      (forall n, n ∈ names ->
         exists a b, m !! n = Some a /\ s !! n = Some b /\
                     out !! n = Some (Subreddit.mk a b)) /\
      (forall n, n ∉ names -> out !! n = acc !! n).
Proof.
  induction names as [|x names IH]; intros acc Hboth.
  - exists acc. split; [reflexivity|]. split; [|reflexivity].
    intros n Hn. inversion Hn.
  - destruct (Hboth x) as [[a Ha] [b Hb]]; [left|].
    destruct (IH (<[x := Subreddit.mk a b]> acc)) as (out & Hout & Hin & Hnot).
    { intros n Hn. apply Hboth. by right. }
    exists out. split.
    { cbn [foldM]. rewrite (subreddit_entry_both m s acc x a b Ha Hb).
      exact Hout. }
    split.
    + intros n Hn. destruct (decide (n ∈ names)) as [Hmem|Hmem]; [by apply Hin|].
      apply elem_of_cons in Hn as [->|Hn]; [|done].
      exists a, b. rewrite (Hnot x Hmem), lookup_insert_eq. done.
    + intros n Hn. apply not_elem_of_cons in Hn as [Hne Hn].
      rewrite (Hnot n Hn). by rewrite lookup_insert_ne.
Qed.

Lemma subreddits_processed_both (results sub m s : gmap string pyval) :
  results !! "subreddits" = Some (PDict sub) ->
  sub !! "reddit_subreddit_mentions" = Some (PDict m) ->
  sub !! "reddit_subreddit_sentiment" = Some (PDict s) ->
  exists out,
    QuoteData.subreddits_processed (PDict results) = Ok (Some out) /\
    dom out = dom m ∩ dom s /\
    (forall name a b, m !! name = Some a -> s !! name = Some b ->
       out !! name = Some (Subreddit.mk a b)).
Proof.
  intros Hsub Hm Hs.
  destruct (subreddit_fold m s (elements (dom m ∩ dom s)) ∅)
    as (out & Hout & Hin & Hnot).
  { intros n Hn. apply elem_of_elements, elem_of_intersection in Hn.
    by rewrite <- !elem_of_dom. }
  exists out. split; [|split].
  - unfold QuoteData.subreddits_processed. simpl.
    rewrite bool_decide_true by (rewrite Hsub; eauto). simpl.
    rewrite Hsub. simpl. rewrite Hm, Hs. simpl. rewrite Hout. reflexivity.
  - apply set_eq. intros n. rewrite elem_of_dom.
    destruct (decide (n ∈ elements (dom m ∩ dom s))) as [Hn|Hn].
    + destruct (Hin n Hn) as (a & b & _ & _ & ->).
      apply elem_of_elements in Hn. split; [done|eauto].
    + rewrite (Hnot n Hn), lookup_empty.
      rewrite elem_of_elements in Hn. split; [by intros [? ?]|done].
  - intros name a b Ha Hb.
    destruct (Hin name) as (a' & b' & Ha' & Hb' & ->).
    { apply elem_of_elements, elem_of_intersection.
      rewrite !elem_of_dom, Ha, Hb. eauto. }
    congruence.
Qed.

Lemma subreddits_processed_absent (results : gmap string pyval) :
  results !! "subreddits" = None ->
  QuoteData.subreddits_processed (PDict results) = Ok None.
Proof.
  intros Hnone. unfold QuoteData.subreddits_processed. simpl.
  rewrite bool_decide_false; [reflexivity|].
  rewrite Hnone. by intros [? ?].
Qed.

(** On a mapping, construction fails only if the subreddits step does. *)
Lemma QuoteData_init_dict (symbol : pyval) (results : gmap string pyval) subs :
  QuoteData.subreddits_processed (PDict results) = Ok subs ->
  QuoteData.init symbol (PDict results) =
  Ok (QuoteData.mk
        (TickerData.mk symbol (field results "sentiment") (field results "AHI")
                       (field results "RHI") (field results "SGP"))
        (Reddit.mk
           (SocialData.mk (field results "reddit_post_mentions")
                          (field results "reddit_post_sentiment")
                          (field results "reddit_post_relative_hype"))
           (SocialData.mk (field results "reddit_comment_mentions")
                          (field results "reddit_comment_sentiment")
                          (field results "reddit_comment_relative_hype"))
           subs)
        (SocialData.mk (field results "tweet_mentions")
                       (field results "tweet_sentiment")
                       (field results "tweet_relative_hype"))
        (SocialData.mk (field results "stocktwits_post_mentions")
                       (field results "stocktwits_post_sentiment")
                       (field results "stocktwits_post_relative_hype"))
        (SocialData.mk (field results "yahoo_finance_comment_mentions")
                       (field results "yahoo_finance_comment_sentiment")
                       (field results "yahoo_finance_comment_relative_hype"))).
Proof.
  intros Hsubs. unfold QuoteData.init.
  rewrite TickerData_init_dict, !SocialData_init_dict, Hsubs. reflexivity.
Qed.

Lemma QuoteData_init_raises (symbol : pyval) (results : gmap string pyval) e :
  QuoteData.subreddits_processed (PDict results) = Raise e ->
  QuoteData.init symbol (PDict results) = Raise e.
Proof.
  intros Hsubs. unfold QuoteData.init.
  rewrite TickerData_init_dict, !SocialData_init_dict, Hsubs. reflexivity.
Qed.

(** C1. For every input mapping with a ['subreddits'] sub-mapping that holds
    the sub-mappings ['reddit_subreddit_mentions'] and
    ['reddit_subreddit_sentiment'], the [subreddits] field of the built
    reddit breakdown has exactly the names in the intersection of the two
    key sets, each with its mentions from the first and its sentiment from
    the second sub-mapping, so a name in only one of them is dropped; when
    the input mapping has no ['subreddits'] key the field is [None]; and
    [mentions = {"a": 1, "b": 2}], [sentiment = {"b": 0.5, "c": 0.1}] give
    exactly [{"b": Subreddit(mentions=2, sentiment=0.5)}]. *)
Theorem subreddits_intersection :
  (forall (symbol : pyval) (results sub m s : gmap string pyval),
     results !! "subreddits" = Some (PDict sub) ->
     sub !! "reddit_subreddit_mentions" = Some (PDict m) ->
     sub !! "reddit_subreddit_sentiment" = Some (PDict s) ->
     exists q out,
       QuoteData.init symbol (PDict results) = Ok q /\
       Reddit.subreddits (QuoteData.reddit_data q) = Some out /\
       dom out = dom m ∩ dom s /\
       (forall name a b,
          m !! name = Some a -> s !! name = Some b ->
          out !! name = Some (Subreddit.mk a b)) /\
       (forall name,
          m !! name = None \/ s !! name = None -> out !! name = None)) /\
  (forall (symbol : pyval) (results : gmap string pyval),
     results !! "subreddits" = None ->
     exists q,
       QuoteData.init symbol (PDict results) = Ok q /\
       Reddit.subreddits (QuoteData.reddit_data q) = None) /\
  (forall symbol : pyval,
     exists q,
       QuoteData.init symbol (PDict example_enriched) = Ok q /\
       Reddit.subreddits (QuoteData.reddit_data q) =
         Some {[ "b" := Subreddit.mk (PInt 2) (PFloat float_0_5) ]}).
Proof.
  split; [|split].
  - intros symbol results sub m s Hsub Hm Hs.
    destruct (subreddits_processed_both results sub m s Hsub Hm Hs)
      as (out & Hout & Hdom & Hboth).
    eexists _, out. split; [apply (QuoteData_init_dict _ _ _ Hout)|].
    split; [reflexivity|]. split; [exact Hdom|]. split; [exact Hboth|].
    intros name Hone. apply not_elem_of_dom. rewrite Hdom.
    rewrite elem_of_intersection, !elem_of_dom.
    intros [[? Hm'] [? Hs']]. destruct Hone; congruence.
  - intros symbol results Hnone. eexists. split.
    + apply QuoteData_init_dict, subreddits_processed_absent, Hnone.
    + reflexivity.
  - intros symbol. eexists. split.
    + apply QuoteData_init_dict. vm_compute. reflexivity.
    + reflexivity.
Qed.

Lemma subreddits_intersection_witness :
  exists q out,
    QuoteData.init (PStr "TSLA") (PDict example_enriched) = Ok q /\
    Reddit.subreddits (QuoteData.reddit_data q) = Some out /\
    dom out = dom example_mentions ∩ dom example_sentiment /\
    (forall name a b,
       example_mentions !! name = Some a -> example_sentiment !! name = Some b ->
       out !! name = Some (Subreddit.mk a b)) /\
    (forall name,
       example_mentions !! name = None \/ example_sentiment !! name = None ->
       out !! name = None).
Proof.
  apply (proj1 subreddits_intersection (PStr "TSLA") example_enriched
           {[ "reddit_subreddit_mentions" := PDict example_mentions;
              "reddit_subreddit_sentiment" := PDict example_sentiment ]}
           example_mentions example_sentiment).
  - vm_compute. reflexivity.
  - vm_compute. reflexivity.
  - vm_compute. reflexivity.
Defined.

(** C2, at the input on which the code departs from it.  The record is
    built from a mapping whose ['subreddits'] sub-mapping lacks
    ['reddit_subreddit_mentions'] or ['reddit_subreddit_sentiment']:
    [.get] answers [None] for the missing one, and [.keys()] on it raises
    [AttributeError] instead of leaving the [subreddits] field [None]. *)
Theorem quote_data_missing_submapping_raises :
  forall (symbol : pyval) (results sub : gmap string pyval),
    results !! "subreddits" = Some (PDict sub) ->
    sub !! "reddit_subreddit_mentions" = None \/
    sub !! "reddit_subreddit_sentiment" = None ->
    QuoteData.init symbol (PDict results) = Raise (AttributeError "keys").
Proof.
  intros symbol results sub Hsub Hmissing.
  apply QuoteData_init_raises.
  unfold QuoteData.subreddits_processed. simpl.
  rewrite bool_decide_true by (rewrite Hsub; eauto). simpl.
  rewrite Hsub. simpl.
  destruct Hmissing as [Hm|Hs].
  - rewrite Hm. reflexivity.
  - rewrite Hs. simpl.
    destruct (sub !! "reddit_subreddit_mentions") as [[]|]; reflexivity.
Qed.

Lemma quote_data_missing_submapping_raises_witness :
  QuoteData.init (PStr "AMC") (PDict example_bare_subreddits) =
  Raise (AttributeError "keys").
Proof.
  apply (quote_data_missing_submapping_raises (PStr "AMC")
           example_bare_subreddits {[ "symbol" := PStr "AMC" ]}).
  - vm_compute. reflexivity.
  - left. vm_compute. reflexivity.
Defined.

(** The same failure seen from the client: [quote] raises on a successful
    reply whose results carry the bare [subreddits] sub-mapping. *)
Example quote_bare_subreddits_raises :
  outcome (Sentipy.quote example_client "AMC" false (always bare_response)) =
  Raise (AttributeError "keys").
Proof. vm_compute. reflexivity. Qed.

(** ** The shared request mechanics *)

Lemma base_request_sent (self : Sentipy.t) endpoint params net :
  sent (Sentipy.base_request self endpoint params net) =
  [request_of self endpoint params].
Proof.
  unfold Sentipy.base_request, sent, mbind, IO_bind, requests_get, lift. simpl.
  fold (request_of self endpoint params).
  destruct (bytes_decode_utf8 _) as [body|e]; simpl; [|reflexivity].
  destruct (String.eqb body "invalid_parameter"); simpl; [reflexivity|].
  destruct (String.eqb body "incorrect_key"); simpl; [reflexivity|].
  destruct (json _) as [j|]; simpl; [|reflexivity].
  destruct (ok _); simpl; [reflexivity|].
  destruct (py_get j "message"); reflexivity.
Qed.

Lemma base_request_outcome (self : Sentipy.t) endpoint params net :
  outcome (Sentipy.base_request self endpoint params net) =
  checked (net (request_of self endpoint params)).
Proof.
  unfold Sentipy.base_request, outcome, mbind, IO_bind, requests_get, lift,
    checked. simpl.
  fold (request_of self endpoint params).
  destruct (bytes_decode_utf8 _) as [body|e]; simpl; [|reflexivity].
  destruct (String.eqb body "invalid_parameter"); simpl; [reflexivity|].
  destruct (String.eqb body "incorrect_key"); simpl; [reflexivity|].
  destruct (json _) as [j|]; simpl; [|reflexivity].
  destruct (ok _); simpl; [reflexivity|].
  destruct (py_get j "message"); reflexivity.
Qed.

(** An operation is one request followed by a computation that sends none. *)
Lemma request_then_outcome {A : Type} (self : Sentipy.t) endpoint params
    (k : pyval -> result A) net :
  outcome ((Sentipy.base_request self endpoint params ≫= fun r => lift (k r)) net) =
  match checked (net (request_of self endpoint params)) with
  | Ok response => k response
  | Raise e => Raise e
  end.
Proof. rewrite outcome_bind, base_request_outcome. reflexivity. Qed.

Lemma request_then_sent {A : Type} (self : Sentipy.t) endpoint params
    (k : pyval -> result A) net :
  sent ((Sentipy.base_request self endpoint params ≫= fun r => lift (k r)) net) =
  [request_of self endpoint params].
Proof.
  rewrite sent_bind, base_request_sent.
  destruct (outcome _); reflexivity.
Qed.

(** ** The public operations *)

Lemma not_success_falsy (resp : gmap string pyval) :
  resp !! "success" = Some (PBool false) ->
  py_truthy (field resp "success") = false.
Proof. intros H. unfold field. rewrite H. reflexivity. Qed.

Ltac after_request H :=
  rewrite outcome_bind, H; cbn beta iota; rewrite outcome_lift.

(** C3. For every public operation: when the request pipeline succeeds and
    the decoded JSON mapping's ['success'] field is false, the operation
    raises nothing and returns [None], the "no result" value of the
    single-record, the sequence-returning and the set-returning operations
    alike. *)
Theorem unsuccessful_response_gives_none
    (self : Sentipy.t) (net : Request -> Response) (resp : gmap string pyval) :
  resp !! "success" = Some (PBool false) ->
  (forall symbol,
     outcome (Sentipy.base_request self "parsed"
                (Some {[ "symbol" := PStr symbol ]}) net) = Ok (PDict resp) ->
     outcome (Sentipy.parsed self symbol net) = Ok None) /\
  (forall symbol,
     outcome (Sentipy.base_request self "raw"
                (Some {[ "symbol" := PStr symbol ]}) net) = Ok (PDict resp) ->
     outcome (Sentipy.raw self symbol net) = Ok None) /\
  (forall symbol enrich,
     outcome (Sentipy.base_request self "quote"
                (Some (<["enrich" := PBool enrich]> {[ "symbol" := PStr symbol ]}))
                net) = Ok (PDict resp) ->
     outcome (Sentipy.quote self symbol enrich net) = Ok None) /\
  (forall metric limit,
     outcome (Sentipy.base_request self "sort"
                (Some (<["limit" := PInt limit]> {[ "metric" := PStr metric ]}))
                net) = Ok (PDict resp) ->
     outcome (Sentipy.sort self metric limit net) = Ok None) /\
  (forall symbol metric start end_,
     outcome (Sentipy.base_request self "historical"
                (Some (<["end" := PInt end_]> (<["start" := PInt start]>
                   (<["metric" := PStr metric]> {[ "symbol" := PStr symbol ]}))))
                net) = Ok (PDict resp) ->
     outcome (Sentipy.historical self symbol metric start end_ net) = Ok None) /\
  (forall symbols enrich,
     outcome (Sentipy.base_request self "bulk"
                (Some (<["enrich" := PBool enrich]>
                   {[ "symbols" := PStr (String.concat "," symbols) ]}))
                net) = Ok (PDict resp) ->
     outcome (Sentipy.bulk self symbols enrich net) = Ok None) /\
  (forall enrich,
     outcome (Sentipy.base_request self "all"
                (Some {[ "enrich" := PBool enrich ]}) net) = Ok (PDict resp) ->
     outcome (Sentipy.all self enrich net) = Ok None) /\
  (forall symbol,
     outcome (Sentipy.base_request self "supported"
                (Some {[ "symbol" := PStr symbol ]}) net) = Ok (PDict resp) ->
     outcome (Sentipy.supported self symbol net) = Ok PNone) /\
  (outcome (Sentipy.base_request self "all-stocks" None net) = Ok (PDict resp) ->
   outcome (Sentipy.all_stocks self net) = Ok None).
Proof.
  intros Hfalse. apply not_success_falsy in Hfalse.
  repeat split; intros.
  - unfold Sentipy.parsed. after_request H.
    rewrite (py_get_dict resp "success"), bind_Ok, Hfalse. reflexivity.
  - unfold Sentipy.raw. after_request H. unfold Sentipy.quote_of.
    rewrite (py_get_dict resp "success"), bind_Ok, Hfalse. reflexivity.
  - unfold Sentipy.quote. after_request H. unfold Sentipy.quote_of.
    rewrite (py_get_dict resp "success"), bind_Ok, Hfalse. reflexivity.
  - unfold Sentipy.sort. after_request H. unfold Sentipy.tickers_of.
    rewrite (py_get_dict resp "success"), bind_Ok, Hfalse. reflexivity.
  - unfold Sentipy.historical. after_request H.
    rewrite (py_get_dict resp "success"), bind_Ok, Hfalse. reflexivity.
  - unfold Sentipy.bulk. after_request H. unfold Sentipy.tickers_of.
    rewrite (py_get_dict resp "success"), bind_Ok, Hfalse. reflexivity.
  - unfold Sentipy.all. after_request H. unfold Sentipy.tickers_of.
    rewrite (py_get_dict resp "success"), bind_Ok, Hfalse. reflexivity.
  - unfold Sentipy.supported. after_request H.
    rewrite (py_get_dict resp "success"), bind_Ok, Hfalse. reflexivity.
  - unfold Sentipy.all_stocks. after_request H.
    rewrite (py_get_dict resp "success"), bind_Ok, Hfalse. reflexivity.
Qed.

Lemma unsuccessful_response_gives_none_witness :
  outcome (Sentipy.parsed example_client "AAPL" (always no_data_response)) = Ok None /\
  outcome (Sentipy.raw example_client "AAPL" (always no_data_response)) = Ok None /\
  outcome (Sentipy.quote example_client "AAPL" true (always no_data_response)) = Ok None /\
  outcome (Sentipy.sort example_client "AHI" 4 (always no_data_response)) = Ok None /\
  outcome (Sentipy.historical example_client "AAPL" "RHI" 1614556869 1619654469
             (always no_data_response)) = Ok None /\
  outcome (Sentipy.bulk example_client ["AAPL"; "TSLA"] false
             (always no_data_response)) = Ok None /\
  outcome (Sentipy.all example_client false (always no_data_response)) = Ok None /\
  outcome (Sentipy.supported example_client "SNTPY" (always no_data_response)) = Ok PNone /\
  outcome (Sentipy.all_stocks example_client (always no_data_response)) = Ok None.
Proof.
  destruct (unsuccessful_response_gives_none example_client
              (always no_data_response) no_data eq_refl)
    as (H1 & H2 & H3 & H4 & H5 & H6 & H7 & H8 & H9).
  split; [apply H1; vm_compute; reflexivity|].
  split; [apply H2; vm_compute; reflexivity|].
  split; [apply H3; vm_compute; reflexivity|].
  split; [apply H4; vm_compute; reflexivity|].
  split; [apply H5; vm_compute; reflexivity|].
  split; [apply H6; vm_compute; reflexivity|].
  split; [apply H7; vm_compute; reflexivity|].
  split; [apply H8; vm_compute; reflexivity|].
  apply H9; vm_compute; reflexivity.
Defined.

Lemma checked_credential_failure (body : string) (r : Response) :
  body = "invalid_parameter" \/ body = "incorrect_key" ->
  body_is body r ->
  checked r = Raise (ValueError "Incorrect key or token").
Proof.
  unfold body_is, checked. intros [->| ->] ->; reflexivity.
Qed.

Lemma every_response_base_request (self : Sentipy.t) endpoint params net P :
  every_response net (Sentipy.base_request self endpoint params) P ->
  P (net (request_of self endpoint params)).
Proof.
  intros H. apply H. rewrite base_request_sent. apply list_elem_of_singleton.
  reflexivity.
Qed.

Lemma every_response_request_then {A : Type} (self : Sentipy.t) endpoint params
    (k : pyval -> result A) net P :
  every_response net
    (Sentipy.base_request self endpoint params ≫= fun r => lift (k r)) P ->
  P (net (request_of self endpoint params)).
Proof.
  intros H. apply H. rewrite request_then_sent. apply list_elem_of_singleton.
  reflexivity.
Qed.

(** If the response is refused, the operation raises what the check does. *)
Lemma request_then_raises {A : Type} (self : Sentipy.t) endpoint params
    (k : pyval -> result A) net e :
  checked (net (request_of self endpoint params)) = Raise e ->
  outcome ((Sentipy.base_request self endpoint params ≫= fun r => lift (k r)) net)
  = Raise e.
Proof. intros H. rewrite request_then_outcome, H. reflexivity. Qed.

Ltac refused_by lem :=
  intros;
  match goal with
  | H : every_response _ _ _ |- _ =>
      apply request_then_raises; apply every_response_request_then in H;
      eapply lem; eassumption
  end.

(** C4. For every request whose raw response body is exactly the text
    [invalid_parameter] or exactly [incorrect_key], the request mechanics
    and with them every public operation raise
    [ValueError("Incorrect key or token")], the module's authentication
    error, whatever the HTTP status code and whatever decoding the body as
    JSON would give. *)
Theorem credential_failure_raises
    (self : Sentipy.t) (net : Request -> Response) (body : string) :
  body = "invalid_parameter" \/ body = "incorrect_key" ->
  (forall endpoint params,
     every_response net (Sentipy.base_request self endpoint params) (body_is body) ->
     outcome (Sentipy.base_request self endpoint params net) =
       Raise (ValueError "Incorrect key or token")) /\
  (forall symbol,
     every_response net (Sentipy.parsed self symbol) (body_is body) ->
     outcome (Sentipy.parsed self symbol net) =
       Raise (ValueError "Incorrect key or token")) /\
  (forall symbol,
     every_response net (Sentipy.raw self symbol) (body_is body) ->
     outcome (Sentipy.raw self symbol net) =
       Raise (ValueError "Incorrect key or token")) /\
  (forall symbol enrich,
     every_response net (Sentipy.quote self symbol enrich) (body_is body) ->
     outcome (Sentipy.quote self symbol enrich net) =
       Raise (ValueError "Incorrect key or token")) /\
  (forall metric limit,
     every_response net (Sentipy.sort self metric limit) (body_is body) ->
     outcome (Sentipy.sort self metric limit net) =
       Raise (ValueError "Incorrect key or token")) /\
  (forall symbol metric start end_,
     every_response net (Sentipy.historical self symbol metric start end_)
       (body_is body) ->
     outcome (Sentipy.historical self symbol metric start end_ net) =
       Raise (ValueError "Incorrect key or token")) /\
  (forall symbols enrich,
     every_response net (Sentipy.bulk self symbols enrich) (body_is body) ->
     outcome (Sentipy.bulk self symbols enrich net) =
       Raise (ValueError "Incorrect key or token")) /\
  (forall enrich,
     every_response net (Sentipy.all self enrich) (body_is body) ->
     outcome (Sentipy.all self enrich net) =
       Raise (ValueError "Incorrect key or token")) /\
  (forall symbol,
     every_response net (Sentipy.supported self symbol) (body_is body) ->
     outcome (Sentipy.supported self symbol net) =
       Raise (ValueError "Incorrect key or token")) /\
  (every_response net (Sentipy.all_stocks self) (body_is body) ->
   outcome (Sentipy.all_stocks self net) =
     Raise (ValueError "Incorrect key or token")).
Proof.
  intros Hbody.
  pose proof (checked_credential_failure body) as Hchecked.
  split.
  { intros endpoint params H. rewrite base_request_outcome.
    apply every_response_base_request in H. by apply Hchecked. }
  split; [unfold Sentipy.parsed; refused_by Hchecked|].
  split; [unfold Sentipy.raw; refused_by Hchecked|].
  split; [unfold Sentipy.quote; refused_by Hchecked|].
  split; [unfold Sentipy.sort; refused_by Hchecked|].
  split; [unfold Sentipy.historical; refused_by Hchecked|].
  split; [unfold Sentipy.bulk; refused_by Hchecked|].
  split; [unfold Sentipy.all; refused_by Hchecked|].
  split; [unfold Sentipy.supported; refused_by Hchecked|].
  unfold Sentipy.all_stocks; refused_by Hchecked.
Qed.

Lemma credential_failure_raises_witness :
  outcome (Sentipy.base_request example_client "quote" None
             (always (denied_response 200))) =
    Raise (ValueError "Incorrect key or token") /\
  outcome (Sentipy.parsed example_client "AAPL" (always (denied_response 200))) =
    Raise (ValueError "Incorrect key or token") /\
  outcome (Sentipy.quote example_client "TSLA" true
             (always (denied_response 500))) =
    Raise (ValueError "Incorrect key or token") /\
  outcome (Sentipy.all_stocks example_client (always (denied_response 403))) =
    Raise (ValueError "Incorrect key or token").
Proof.
  split; [|split; [|split]].
  - apply (proj1 (credential_failure_raises example_client
                    (always (denied_response 200)) "incorrect_key"
                    (or_intror eq_refl))).
    intros rq _. reflexivity.
  - apply (proj1 (proj2 (credential_failure_raises example_client
                    (always (denied_response 200)) "incorrect_key"
                    (or_intror eq_refl)))).
    intros rq _. reflexivity.
  - destruct (credential_failure_raises example_client
                (always (denied_response 500)) "incorrect_key"
                (or_intror eq_refl)) as (_ & _ & _ & H & _).
    apply H. intros rq _. reflexivity.
  - destruct (credential_failure_raises example_client
                (always (denied_response 403)) "incorrect_key"
                (or_intror eq_refl)) as (_ & _ & _ & _ & _ & _ & _ & _ & _ & H).
    apply H. intros rq _. reflexivity.
Defined.

Lemma checked_text_not_json (r : Response) :
  text_not_json r -> checked r = Raise (Exception (PStr (text r))).
Proof.
  intros (body & Hbody & Hne1 & Hne2 & Hjson). unfold checked.
  rewrite Hbody, Hjson.
  apply String.eqb_neq in Hne1, Hne2. rewrite Hne1, Hne2. reflexivity.
Qed.

Lemma request_then_raises_text {A : Type} (self : Sentipy.t) endpoint params
    (k : pyval -> result A) net :
  every_response net
    (Sentipy.base_request self endpoint params ≫= fun r => lift (k r))
    text_not_json ->
  raises_response_text net
    (Sentipy.base_request self endpoint params ≫= fun r => lift (k r)).
Proof.
  intros H. apply every_response_request_then in H.
  exists (request_of self endpoint params). split.
  - apply request_then_sent.
  - apply request_then_raises, checked_text_not_json, H.
Qed.

(** The path on which the code reports a body that is not JSON.  For
    every request whose response body is well-formed UTF-8, is not one of
    the two bare credential-failure strings and fails to decode as JSON,
    the request mechanics and with them every public operation raise
    [Exception(response.text)], the module's protocol error carrying the
    raw response text, whatever the HTTP status, 200 included. *)
Theorem undecodable_body_raises_text
    (self : Sentipy.t) (net : Request -> Response) :
  (forall endpoint params,
     every_response net (Sentipy.base_request self endpoint params) text_not_json ->
     raises_response_text net (Sentipy.base_request self endpoint params)) /\
  (forall symbol,
     every_response net (Sentipy.parsed self symbol) text_not_json ->
     raises_response_text net (Sentipy.parsed self symbol)) /\
  (forall symbol,
     every_response net (Sentipy.raw self symbol) text_not_json ->
     raises_response_text net (Sentipy.raw self symbol)) /\
  (forall symbol enrich,
     every_response net (Sentipy.quote self symbol enrich) text_not_json ->
     raises_response_text net (Sentipy.quote self symbol enrich)) /\
  (forall metric limit,
     every_response net (Sentipy.sort self metric limit) text_not_json ->
     raises_response_text net (Sentipy.sort self metric limit)) /\
  (forall symbol metric start end_,
     every_response net (Sentipy.historical self symbol metric start end_)
       text_not_json ->
     raises_response_text net (Sentipy.historical self symbol metric start end_)) /\
  (forall symbols enrich,
     every_response net (Sentipy.bulk self symbols enrich) text_not_json ->
     raises_response_text net (Sentipy.bulk self symbols enrich)) /\
  (forall enrich,
     every_response net (Sentipy.all self enrich) text_not_json ->
     raises_response_text net (Sentipy.all self enrich)) /\
  (forall symbol,
     every_response net (Sentipy.supported self symbol) text_not_json ->
     raises_response_text net (Sentipy.supported self symbol)) /\
  (every_response net (Sentipy.all_stocks self) text_not_json ->
   raises_response_text net (Sentipy.all_stocks self)).
Proof.
  split.
  { intros endpoint params H. apply every_response_base_request in H.
    exists (request_of self endpoint params). split.
    - apply base_request_sent.
    - rewrite base_request_outcome. by apply checked_text_not_json. }
  split; [intros; by apply request_then_raises_text|].
  split; [intros; by apply request_then_raises_text|].
  split; [intros; by apply request_then_raises_text|].
  split; [intros; by apply request_then_raises_text|].
  split; [intros; by apply request_then_raises_text|].
  split; [intros; by apply request_then_raises_text|].
  split; [intros; by apply request_then_raises_text|].
  split; [intros; by apply request_then_raises_text|].
  intros; by apply request_then_raises_text.
Qed.

Lemma html_text_not_json : text_not_json html_response.
Proof.
  exists "<html>Bad Gateway</html>".
  split; [reflexivity|]. split; [discriminate|]. split; [discriminate|reflexivity].
Defined.

Lemma undecodable_body_raises_text_witness :
  status_code html_response = 200 /\
  raises_response_text (always html_response)
    (Sentipy.base_request example_client "sort" None) /\
  raises_response_text (always html_response)
    (Sentipy.sort example_client "AHI" 4).
Proof.
  split; [reflexivity|]. split.
  - apply (proj1 (undecodable_body_raises_text example_client
                    (always html_response))).
    intros rq _. apply html_text_not_json.
  - destruct (undecodable_body_raises_text example_client
                (always html_response)) as (_ & _ & _ & _ & H & _).
    apply H. intros rq _. apply html_text_not_json.
Defined.

(** C5, at the input on which the code departs from it.  The body 0xFF
    is neither credential-failure string and does not decode as JSON, so
    the call should raise [Exception(response.text)] as it does for every
    other body that is not JSON; yet the strict
    [response.content.decode("utf-8")] of the credential comparison raises
    [UnicodeDecodeError] before the [try] that catches the JSON failure is
    reached, with status 200 as with any other. *)
Lemma undecodable_body_counterexample :
  every_response (always garbled_response)
    (Sentipy.parsed example_client "AAPL") not_json /\
  status_code garbled_response = 200 /\
  outcome (Sentipy.parsed example_client "AAPL" (always garbled_response)) =
    Raise UnicodeDecodeError /\
  ~ raises_response_text (always garbled_response)
      (Sentipy.parsed example_client "AAPL").
Proof.
  split; [|split; [reflexivity|split; [reflexivity|]]].
  - intros rq _. split; [|split]; [discriminate|discriminate|reflexivity].
  - intros (rq & _ & Hraise). vm_compute in Hraise. discriminate.
Qed.

(** ** Sequences of records *)

Lemma mapM_tickers (entries : list (gmap string pyval)) :
  exists data,
    mapM (fun stock => sym ← py_get stock "symbol"; TickerData.init sym stock)
         (PDict <$> entries) = Ok data /\
    length data = length entries /\
    forall (i : nat) stock,
      entries !! i = Some stock ->
      exists r,
        data !! i = Some r /\
        TickerData.init (field stock "symbol") (PDict stock) = Ok r /\
        TickerData.symbol r = field stock "symbol".
Proof.
  induction entries as [|e entries (data & Hdata & Hlen & Hnth)].
  - exists []. repeat split. intros i stock Hi. inversion Hi.
  - eexists (_ :: data). split; [|split].
    + cbn [fmap list_fmap mapM]. rewrite py_get_dict, bind_Ok.
      rewrite TickerData_init_dict, bind_Ok.
      change (list_fmap _ _ PDict entries) with (PDict <$> entries).
      rewrite Hdata. reflexivity.
    + simpl. by rewrite Hlen.
    + intros [|i] stock Hi.
      * injection Hi as <-. eexists. split; [reflexivity|].
        split; [apply TickerData_init_dict|reflexivity].
      * apply Hnth. exact Hi.
Qed.

Lemma tickers_of_success (resp : gmap string pyval) entries :
  py_truthy (field resp "success") = true ->
  resp !! "results" = Some (PList (PDict <$> entries)) ->
  tickers_in_order entries (Sentipy.tickers_of (PDict resp)).
Proof.
  intros Hsuccess Hresults.
  destruct (mapM_tickers entries) as (data & Hdata & Hrest).
  exists data. split; [|exact Hrest].
  unfold Sentipy.tickers_of.
  rewrite (py_get_dict resp "success"), bind_Ok, Hsuccess.
  rewrite py_get_dict, bind_Ok. unfold field. rewrite Hresults.
  cbn [py_iter]. rewrite bind_Ok, Hdata. reflexivity.
Qed.

(** C8. For every successful [sort] and [bulk] call whose response results
    sequence has n elements, the returned value is a list of exactly n
    [TickerData] records in the order of the response, the i-th built from
    the i-th response element with that element's own ['symbol']. *)
Theorem service_order_preserved
    (self : Sentipy.t) (net : Request -> Response)
    (resp : gmap string pyval) (entries : list (gmap string pyval)) :
  py_truthy (field resp "success") = true ->
  resp !! "results" = Some (PList (PDict <$> entries)) ->
  (forall metric limit,
     outcome (Sentipy.base_request self "sort"
                (Some (<["limit" := PInt limit]> {[ "metric" := PStr metric ]}))
                net) = Ok (PDict resp) ->
     tickers_in_order entries (outcome (Sentipy.sort self metric limit net))) /\
  (forall symbols enrich,
     outcome (Sentipy.base_request self "bulk"
                (Some (<["enrich" := PBool enrich]>
                   {[ "symbols" := PStr (String.concat "," symbols) ]}))
                net) = Ok (PDict resp) ->
     tickers_in_order entries (outcome (Sentipy.bulk self symbols enrich net))).
Proof.
  intros Hsuccess Hresults. split; intros.
  - unfold Sentipy.sort. after_request H. by apply tickers_of_success.
  - unfold Sentipy.bulk. after_request H. by apply tickers_of_success.
Qed.

Lemma service_order_preserved_witness :
  tickers_in_order example_ranking
    (outcome (Sentipy.sort example_client "AHI" 2 (always ranking_response))) /\
  tickers_in_order example_ranking
    (outcome (Sentipy.bulk example_client ["AAPL"; "TSLA"] false
                (always ranking_response))).
Proof.
  destruct (service_order_preserved example_client (always ranking_response)
              ranking_reply example_ranking eq_refl eq_refl) as [Hsort Hbulk].
  split.
  - apply Hsort. vm_compute. reflexivity.
  - apply Hbulk. vm_compute. reflexivity.
Defined.

(** C9. For every [bulk] call with an ordered sequence of symbols, the one
    request sent goes to the [bulk] endpoint and its parameters hold a
    single ['symbols'] value, the input symbols joined with commas in input
    order, beside ['enrich'], ['token'] and ['key'] and nothing else;
    [["AAPL"; "TSLA"]] is sent as ["AAPL,TSLA"]. *)
Theorem bulk_symbols_comma_joined :
  (forall (self : Sentipy.t) (symbols : list string) (enrich : bool)
          (net : Request -> Response),
     exists rq,
       sent (Sentipy.bulk self symbols enrich net) = [rq] /\
       url rq = (Sentipy.base_url ++ "bulk")%string /\
       params rq !! "symbols" = Some (PStr (String.concat "," symbols)) /\
       dom (params rq) = {[ "symbols"; "enrich"; "token"; "key" ]}) /\
  (forall (self : Sentipy.t) (enrich : bool) (net : Request -> Response),
     exists rq,
       sent (Sentipy.bulk self ["AAPL"; "TSLA"] enrich net) = [rq] /\
       params rq !! "symbols" = Some (PStr "AAPL,TSLA")).
Proof.
  split.
  - intros self symbols enrich net. eexists. split; [|split; [|split]].
    + unfold Sentipy.bulk. apply request_then_sent.
    + reflexivity.
    + reflexivity.
    + cbn [params request_of default]. unfold id.
      rewrite !dom_insert_L, dom_singleton_L. set_solver.
  - intros self enrich net. eexists. split.
    + unfold Sentipy.bulk. apply request_then_sent.
    + reflexivity.
Qed.

(** ** The symbol of a returned record *)

Lemma TickerData_init_symbol (symbol results : pyval) (r : TickerData.t) :
  TickerData.init symbol results = Ok r -> TickerData.symbol r = symbol.
Proof.
  unfold TickerData.init. destruct results; try discriminate.
  rewrite !py_get_dict, !bind_Ok. intros [= <-]. reflexivity.
Qed.

Lemma QuoteData_init_symbol (symbol results : pyval) (q : QuoteData.t) :
  QuoteData.init symbol results = Ok q ->
  TickerData.symbol (QuoteData.base q) = symbol.
Proof.
  unfold QuoteData.init. destruct results as [| | | | | |d]; try discriminate.
  rewrite TickerData_init_dict, !SocialData_init_dict, !bind_Ok.
  destruct (QuoteData.subreddits_processed (PDict d)) as [subs|e];
    [|discriminate].
  rewrite bind_Ok. intros [= <-]. reflexivity.
Qed.

Lemma quote_of_symbol (resp : gmap string pyval) (q : QuoteData.t) :
  Sentipy.quote_of (PDict resp) = Ok (Some q) ->
  TickerData.symbol (QuoteData.base q) = field resp "symbol".
Proof.
  unfold Sentipy.quote_of.
  rewrite (py_get_dict resp "success"), bind_Ok.
  destruct (py_truthy (field resp "success")); [|discriminate].
  rewrite !py_get_dict, !bind_Ok.
  destruct (QuoteData.init _ _) as [q'|e] eqn:Hinit; [|discriminate].
  rewrite bind_Ok. intros [= <-]. by apply QuoteData_init_symbol in Hinit.
Qed.

Lemma quote_of_success (resp results : gmap string pyval) subs :
  py_truthy (field resp "success") = true ->
  resp !! "results" = Some (PDict results) ->
  QuoteData.subreddits_processed (PDict results) = Ok subs ->
  exists q, Sentipy.quote_of (PDict resp) = Ok (Some q).
Proof.
  intros Hsuccess Hresults Hsubs. unfold Sentipy.quote_of.
  rewrite (py_get_dict resp "success"), bind_Ok, Hsuccess.
  rewrite !py_get_dict, !bind_Ok. unfold field at 2. rewrite Hresults.
  rewrite (QuoteData_init_dict _ _ _ Hsubs), bind_Ok. eauto.
Qed.

(** C10. For [parsed], [raw] and [quote], on a success response the
    [symbol] of the returned record is the value under the envelope's
    top-level ['symbol'] key, and [None] when the envelope has no such key;
    the symbol argument of the call does not enter it.  The record is
    returned whenever the envelope's results are a mapping (for [raw] and
    [quote]: one whose subreddits step succeeds). *)
Theorem record_symbol_from_envelope
    (self : Sentipy.t) (net : Request -> Response) (resp : gmap string pyval) :
  let envelope_symbol :=
    match resp !! "symbol" with
    | Some v => v
    | None => PNone
    end in
  (forall symbol,
     outcome (Sentipy.base_request self "parsed"
                (Some {[ "symbol" := PStr symbol ]}) net) = Ok (PDict resp) ->
     (forall r, outcome (Sentipy.parsed self symbol net) = Ok (Some r) ->
                TickerData.symbol r = envelope_symbol) /\
     (forall results,
        py_truthy (field resp "success") = true ->
        resp !! "results" = Some (PDict results) ->
        exists r, outcome (Sentipy.parsed self symbol net) = Ok (Some r))) /\
  (forall symbol,
     outcome (Sentipy.base_request self "raw"
                (Some {[ "symbol" := PStr symbol ]}) net) = Ok (PDict resp) ->
     (forall q, outcome (Sentipy.raw self symbol net) = Ok (Some q) ->
                TickerData.symbol (QuoteData.base q) = envelope_symbol) /\
     (forall results subs,
        py_truthy (field resp "success") = true ->
        resp !! "results" = Some (PDict results) ->
        QuoteData.subreddits_processed (PDict results) = Ok subs ->
        exists q, outcome (Sentipy.raw self symbol net) = Ok (Some q))) /\
  (forall symbol enrich,
     outcome (Sentipy.base_request self "quote"
                (Some (<["enrich" := PBool enrich]> {[ "symbol" := PStr symbol ]}))
                net) = Ok (PDict resp) ->
     (forall q, outcome (Sentipy.quote self symbol enrich net) = Ok (Some q) ->
                TickerData.symbol (QuoteData.base q) = envelope_symbol) /\
     (forall results subs,
        py_truthy (field resp "success") = true ->
        resp !! "results" = Some (PDict results) ->
        QuoteData.subreddits_processed (PDict results) = Ok subs ->
        exists q, outcome (Sentipy.quote self symbol enrich net) = Ok (Some q))).
Proof.
  intros envelope_symbol. change envelope_symbol with (field resp "symbol").
  split; [|split].
  - intros symbol H. unfold Sentipy.parsed. after_request H. split.
    + intros r. rewrite (py_get_dict resp "success"), bind_Ok.
      destruct (py_truthy (field resp "success")); [|discriminate].
      rewrite !py_get_dict, !bind_Ok.
      destruct (TickerData.init _ _) as [r'|e] eqn:Hinit; [|discriminate].
      rewrite bind_Ok. intros [= <-]. by apply TickerData_init_symbol in Hinit.
    + intros results Hsuccess Hresults.
      rewrite (py_get_dict resp "success"), bind_Ok, Hsuccess.
      rewrite !py_get_dict, !bind_Ok. unfold field at 2. rewrite Hresults.
      rewrite TickerData_init_dict, bind_Ok. eauto.
  - intros symbol H. unfold Sentipy.raw. after_request H. split.
    + intros q. apply quote_of_symbol.
    + intros results subs. apply quote_of_success.
  - intros symbol enrich H. unfold Sentipy.quote. after_request H. split.
    + intros q. apply quote_of_symbol.
    + intros results subs. apply quote_of_success.
Qed.

Lemma record_symbol_from_envelope_witness :
  (exists r,
     outcome (Sentipy.parsed example_client "aapl" (always quote_response)) =
       Ok (Some r) /\
     TickerData.symbol r = PStr "AAPL") /\
  (exists q,
     outcome (Sentipy.raw example_client "aapl" (always quote_response)) =
       Ok (Some q) /\
     TickerData.symbol (QuoteData.base q) = PStr "AAPL") /\
  (exists q,
     outcome (Sentipy.quote example_client "aapl" false
                (always anonymous_response)) = Ok (Some q) /\
     TickerData.symbol (QuoteData.base q) = PNone).
Proof.
  destruct (record_symbol_from_envelope example_client (always quote_response)
              quote_reply) as (Hparsed & Hraw & _).
  destruct (record_symbol_from_envelope example_client
              (always anonymous_response) anonymous_reply) as (_ & _ & Hquote).
  split; [|split].
  - destruct (Hparsed "aapl") as [Hsym Hret]; [vm_compute; reflexivity|].
    destruct (Hret {[ "AHI" := PFloat float_0_5 ]}) as [r Hr];
      [vm_compute; reflexivity..|].
    exists r. split; [exact Hr|exact (Hsym r Hr)].
  - destruct (Hraw "aapl") as [Hsym Hret]; [vm_compute; reflexivity|].
    destruct (Hret {[ "AHI" := PFloat float_0_5 ]} None) as [q Hq];
      [vm_compute; reflexivity..|].
    exists q. split; [exact Hq|exact (Hsym q Hq)].
  - destruct (Hquote "aapl" false) as [Hsym Hret]; [vm_compute; reflexivity|].
    destruct (Hret {[ "AHI" := PFloat float_0_5 ]} None) as [q Hq];
      [vm_compute; reflexivity..|].
    exists q. split; [exact Hq|exact (Hsym q Hq)].
Defined.

(** ** The mapping built by [historical] *)

Lemma dict_store_lookup (c c' : hkey) (k v : pyval) (d : pydict) :
  py_key k = Some c ->
  dict_lookup c' (dict_store c k v d) =
  if decide (c = c') then Some v else dict_lookup c' d.
Proof.
  intros Hk. induction d as [|[k0 v0] d IH]; simpl.
  - rewrite Hk. destruct (decide (c = c')) as [->|Hne].
    + by rewrite bool_decide_true.
    + rewrite bool_decide_false; [done|congruence].
  - destruct (decide (py_key k0 = Some c)) as [H0|H0].
    + rewrite (bool_decide_true _ H0). simpl. rewrite H0.
      destruct (decide (c = c')) as [->|Hne].
      * by rewrite !bool_decide_true.
      * rewrite !bool_decide_false; [done|congruence..].
    + rewrite (bool_decide_false _ H0). simpl. rewrite IH.
      destruct (bool_decide (py_key k0 = Some c')) eqn:Hc'; [|done].
      apply bool_decide_eq_true in Hc'.
      destruct (decide (c = c')) as [->|Hne]; [contradiction|done].
Qed.

Lemma dict_store_key_in (c : hkey) (k v : pyval) (d : pydict) x :
  py_key k = Some c ->
  x ∈ (fun kv => py_key kv.1) <$> dict_store c k v d ->
  x = Some c \/ x ∈ (fun kv => py_key kv.1) <$> d.
Proof.
  intros Hk. induction d as [|[k0 v0] d IH]; simpl.
  - intros Hin. apply list_elem_of_singleton in Hin. left. congruence.
  - destruct (bool_decide (py_key k0 = Some c)); simpl; intros Hin.
    + by right.
    + apply elem_of_cons in Hin as [->|Hin]; [right; by left|].
      destruct (IH Hin) as [->|Hd]; [by left|]. right. by right.
Qed.

Lemma dict_store_keys (c : hkey) (k v : pyval) (d : pydict) :
  py_key k = Some c ->
  NoDup ((fun kv => py_key kv.1) <$> d) ->
  NoDup ((fun kv => py_key kv.1) <$> dict_store c k v d).
Proof.
  intros Hk. induction d as [|[k0 v0] d IH]; simpl; intros Hnd.
  - apply NoDup_singleton.
  - apply NoDup_cons in Hnd as [Hfresh Hnd].
    destruct (decide (py_key k0 = Some c)) as [H0|H0].
    + rewrite (bool_decide_true _ H0). simpl. by apply NoDup_cons.
    + rewrite (bool_decide_false _ H0). simpl. apply NoDup_cons.
      split; [|by apply IH].
      intros Hin. by apply (dict_store_key_in c k v d _ Hk) in Hin as [?|?].
Qed.

Lemma dict_store_elem (c : hkey) (k v k' v' : pyval) (d : pydict) :
  (k', v') ∈ dict_store c k v d -> k' = k \/ k' ∈ d.*1.
Proof.
  induction d as [|[k0 v0] d IH]; simpl.
  - intros Hin. apply list_elem_of_singleton in Hin. left. congruence.
  - destruct (bool_decide (py_key k0 = Some c)); intros Hin;
      apply elem_of_cons in Hin as [Hin|Hin].
    + injection Hin as -> ->. right. left.
    + right. right. apply (list_elem_of_fmap_2 fst) in Hin. exact Hin.
    + injection Hin as -> ->. right. left.
    + destruct (IH Hin) as [->|Hd]; [by left|]. right. by right.
Qed.

Lemma data_point_dict (acc : pydict) (e : gmap string pyval) (c : hkey) :
  py_key (field e "timestamp") = Some c ->
  Sentipy.data_point acc (PDict e) =
  Ok (dict_store c (field e "timestamp") (field e "data") acc).
Proof.
  intros Hc. unfold Sentipy.data_point, dict_setitem.
  rewrite !py_get_dict, !bind_Ok, Hc. reflexivity.
Qed.

Lemma fold_data_points (entries : list (gmap string pyval)) :
  Forall (fun e => is_Some (py_key (field e "timestamp"))) entries ->
  forall acc : pydict,
    NoDup ((fun kv => py_key kv.1) <$> acc) ->
    exists d,
      foldM Sentipy.data_point acc (PDict <$> entries) = Ok d /\
      NoDup ((fun kv => py_key kv.1) <$> d) /\
      (forall k v, (k, v) ∈ d ->
         k ∈ acc.*1 \/ exists e, e ∈ entries /\ k = field e "timestamp") /\
      (forall c, dict_lookup c d =
                 match latest c entries with
                 | Some v => Some v
                 | None => dict_lookup c acc
                 end).
Proof.
  induction 1 as [|e entries [c Hc] _ IH]; intros acc Hnd.
  - exists acc. split; [reflexivity|]. split; [exact Hnd|]. split; [|done].
    intros k v Hin. left. apply (list_elem_of_fmap_2 fst) in Hin. exact Hin.
  - destruct (IH (dict_store c (field e "timestamp") (field e "data") acc))
      as (d & Hfold & Hnd' & Hkeys & Hlookup).
    { by apply dict_store_keys. }
    exists d. split; [|split; [exact Hnd'|split]].
    + cbn [fmap list_fmap foldM]. rewrite (data_point_dict acc e c Hc), bind_Ok.
      exact Hfold.
    + intros k v Hin. destruct (Hkeys k v Hin) as [Hacc|(e' & He' & ->)].
      * apply list_elem_of_fmap in Hacc as ([k0 v0] & -> & Hacc).
        apply dict_store_elem in Hacc as [->|Hacc]; [|by left].
        right. exists e. split; [by left|done].
      * right. exists e'. split; [by right|done].
    + intros c'. rewrite Hlookup. simpl.
      destruct (latest c' entries); [done|].
      rewrite (dict_store_lookup c c' _ _ _ Hc), Hc.
      destruct (decide (c = c')) as [->|Hne].
      * by rewrite bool_decide_true.
      * rewrite bool_decide_false; [done|congruence].
Qed.

(** C6. For every successful [historical] call, whose response results are
    a sequence of entries, the returned value is the mapping from each
    entry's ['timestamp'] to its ['data'], a later entry with the same
    timestamp overwriting the earlier one; and the response with results
    [[{"timestamp": 1618057166.5, "data": 5.9e-05}]] yields the mapping
    [{1618057166.5: 5.9e-05}]. *)
Theorem historical_timestamp_mapping :
  (forall (self : Sentipy.t) (net : Request -> Response)
          (symbol metric : string) (start end_ : Z)
          (resp : gmap string pyval) (entries : list (gmap string pyval)),
     outcome (Sentipy.base_request self "historical"
                (Some (<["end" := PInt end_]> (<["start" := PInt start]>
                   (<["metric" := PStr metric]> {[ "symbol" := PStr symbol ]}))))
                net) = Ok (PDict resp) ->
     py_truthy (field resp "success") = true ->
     resp !! "results" = Some (PList (PDict <$> entries)) ->
     Forall (fun e => is_Some (py_key (field e "timestamp"))) entries ->
     exists d,
       outcome (Sentipy.historical self symbol metric start end_ net) =
         Ok (Some d) /\
       timestamp_mapping entries d) /\
  (forall self : Sentipy.t,
     outcome (Sentipy.historical self "AAPL" "RHI" 1614556869 1619654469
                (always history_response)) =
       Ok (Some [(PFloat float_1618057166_5, PFloat float_5_9e_05)])).
Proof.
  split.
  - intros self net symbol metric start end_ resp entries H Hsuccess Hresults
      Hhashable.
    destruct (fold_data_points entries Hhashable [] (NoDup_nil_2))
      as (d & Hfold & Hnd & Hkeys & Hlookup).
    exists d. split; [|split; [exact Hnd|split]].
    + unfold Sentipy.historical. after_request H.
      rewrite (py_get_dict resp "success"), bind_Ok, Hsuccess.
      rewrite py_get_dict, bind_Ok. unfold field at 1. rewrite Hresults.
      cbn [py_iter]. rewrite bind_Ok, Hfold. reflexivity.
    + intros k v Hin. destruct (Hkeys k v Hin) as [Hnil|He]; [|exact He].
      inversion Hnil.
    + intros c. rewrite Hlookup. by destruct (latest c entries).
  - intros self. unfold Sentipy.historical.
    rewrite request_then_outcome. reflexivity.
Qed.

Lemma historical_timestamp_mapping_witness :
  exists d,
    outcome (Sentipy.historical example_client "AAPL" "RHI" 1614556869 1619654469
               (always repeated_response)) = Ok (Some d) /\
    timestamp_mapping repeated_entries d.
Proof.
  apply (proj1 historical_timestamp_mapping example_client
           (always repeated_response) "AAPL" "RHI" 1614556869 1619654469
           repeated_reply repeated_entries).
  - vm_compute. reflexivity.
  - vm_compute. reflexivity.
  - vm_compute. reflexivity.
  - repeat constructor; vm_compute; eauto.
Defined.

(** With a repeated timestamp the first key object stays and the last data
    wins: [1618057166] and [1618057166.0] are one key. *)
Example historical_repeated_timestamp :
  outcome (Sentipy.historical example_client "AAPL" "RHI" 1614556869 1619654469
             (always repeated_response)) =
  Ok (Some [(PInt 1618057166, PFloat float_0_5);
            (PFloat float_1618057166_5, PFloat float_5_9e_05)]).
Proof. vm_compute. reflexivity. Qed.

(** * Further properties of the client and the mapper *)

(** ** Requests *)

Lemma every_operation_intro (self : Sentipy.t)
    (Q : forall A : Type, IO A -> Prop) :
  (forall endpoint params, Q _ (Sentipy.base_request self endpoint params)) ->
  (forall (A : Type) endpoint params (k : pyval -> result A),
     Q A (Sentipy.base_request self endpoint params ≫= fun r => lift (k r))) ->
  every_operation self Q.
Proof.
  intros Hbase Hthen. split; [exact Hbase|].
  repeat split; intros; apply Hthen.
Qed.

(** X1. Every public operation sends exactly one request, whatever the
    transport answers and whether the call returns or raises: a GET to the
    base URL followed by the operation's endpoint, with the operation's own
    parameters and the client's [token] and [key]. *)
Theorem one_request_per_call (self : Sentipy.t) (net : Request -> Response) :
  let credentials (params : gmap string pyval) :=
    <["key" := PStr (Sentipy.key self)]>
      (<["token" := PStr (Sentipy.token self)]> params) in
  let api (endpoint : string) :=
    ("https://api.sentimentinvestor.com/v4/" ++ endpoint)%string in
  (forall symbol,
     sent (Sentipy.parsed self symbol net) =
     [mkRequest (api "parsed") (credentials {[ "symbol" := PStr symbol ]})]) /\
  (forall symbol,
     sent (Sentipy.raw self symbol net) =
     [mkRequest (api "raw") (credentials {[ "symbol" := PStr symbol ]})]) /\
  (forall symbol enrich,
     sent (Sentipy.quote self symbol enrich net) =
     [mkRequest (api "quote")
        (credentials {[ "symbol" := PStr symbol; "enrich" := PBool enrich ]})]) /\
  (forall metric limit,
     sent (Sentipy.sort self metric limit net) =
     [mkRequest (api "sort")
        (credentials {[ "metric" := PStr metric; "limit" := PInt limit ]})]) /\
  (forall symbol metric start end_,
     sent (Sentipy.historical self symbol metric start end_ net) =
     [mkRequest (api "historical")
        (credentials {[ "symbol" := PStr symbol; "metric" := PStr metric;
                        "start" := PInt start; "end" := PInt end_ ]})]) /\
  (forall symbols enrich,
     sent (Sentipy.bulk self symbols enrich net) =
     [mkRequest (api "bulk")
        (credentials {[ "symbols" := PStr (String.concat "," symbols);
                        "enrich" := PBool enrich ]})]) /\
  (forall enrich,
     sent (Sentipy.all self enrich net) =
     [mkRequest (api "all") (credentials {[ "enrich" := PBool enrich ]})]) /\
  (forall symbol,
     sent (Sentipy.supported self symbol net) =
     [mkRequest (api "supported") (credentials {[ "symbol" := PStr symbol ]})]) /\
  sent (Sentipy.all_stocks self net) =
  [mkRequest (api "all-stocks") (credentials ∅)].
Proof.
  intros credentials api.
  split; [intros; unfold Sentipy.parsed; by rewrite request_then_sent|].
  split; [intros; unfold Sentipy.raw; by rewrite request_then_sent|].
  split.
  { intros. unfold Sentipy.quote. rewrite request_then_sent. reflexivity. }
  split.
  { intros. unfold Sentipy.sort. rewrite request_then_sent. reflexivity. }
  split.
  { intros. unfold Sentipy.historical. rewrite request_then_sent. reflexivity. }
  split.
  { intros. unfold Sentipy.bulk. rewrite request_then_sent. reflexivity. }
  split; [intros; unfold Sentipy.all; by rewrite request_then_sent|].
  split; [intros; unfold Sentipy.supported; by rewrite request_then_sent|].
  unfold Sentipy.all_stocks. by rewrite request_then_sent.
Qed.

(** X2. Whatever parameters the caller passes, [__base_request] sends them
    on unchanged except for ['token'] and ['key'], which it sets to the
    client's credentials, overwriting values of those names; with no
    parameters it sends the two credentials alone. *)
Theorem base_request_injects_credentials
    (self : Sentipy.t) (endpoint : string)
    (given : option (gmap string pyval)) (net : Request -> Response) :
  exists rq,
    sent (Sentipy.base_request self endpoint given net) = [rq] /\
    url rq = (Sentipy.base_url ++ endpoint)%string /\
    params rq !! "token" = Some (PStr (Sentipy.token self)) /\
    params rq !! "key" = Some (PStr (Sentipy.key self)) /\
    (forall k, k <> "token" -> k <> "key" ->
       params rq !! k = match given with
                        | Some caller => caller !! k
                        | None => None
                        end).
Proof.
  exists (request_of self endpoint given).
  split; [apply base_request_sent|]. split; [reflexivity|].
  cbn [params request_of].
  split; [by rewrite lookup_insert_ne, lookup_insert_eq|].
  split; [by rewrite lookup_insert_eq|].
  intros k Htoken Hkey. rewrite !lookup_insert_ne by done.
  destruct given; [reflexivity|apply lookup_empty].
Qed.

Lemma checked_accepted (j : pyval) (r : Response) :
  accepted j r -> checked r = Ok j.
Proof.
  intros (body & Hbody & Hne1 & Hne2 & Hjson & Hok). unfold checked.
  apply String.eqb_neq in Hne1, Hne2.
  rewrite Hbody, Hne1, Hne2, Hjson, Hok. reflexivity.
Qed.

Lemma checked_Ok (j : pyval) (r : Response) :
  checked r = Ok j -> accepted j r.
Proof.
  unfold checked, accepted.
  destruct (bytes_decode_utf8 (content r)) as [body|e]; [|discriminate].
  destruct (String.eqb body "invalid_parameter") eqn:H1; [discriminate|].
  destruct (String.eqb body "incorrect_key") eqn:H2; [discriminate|]. simpl.
  destruct (json r) as [j'|]; [|discriminate].
  destruct (ok r).
  - intros [= ->]. exists body. apply String.eqb_neq in H1, H2. done.
  - destruct (py_get j' "message"); discriminate.
Qed.

Lemma checked_refused (d : gmap string pyval) (r : Response) :
  refused (PDict d) r -> checked r = Raise (Exception (field d "message")).
Proof.
  intros (body & Hbody & Hne1 & Hne2 & Hjson & Hok). unfold checked.
  apply String.eqb_neq in Hne1, Hne2.
  rewrite Hbody, Hne1, Hne2, Hjson, Hok, py_get_dict. reflexivity.
Qed.

Lemma checked_not_utf8 (r : Response) :
  utf8_valid (content r) = false -> checked r = Raise UnicodeDecodeError.
Proof.
  intros H. unfold checked, bytes_decode_utf8. rewrite H. reflexivity.
Qed.

(** An operation raises what the check of its response raises. *)
Lemma every_operation_raises (self : Sentipy.t) (net : Request -> Response)
    (P : Response -> Prop) (e : exn) :
  (forall r, P r -> checked r = Raise e) ->
  every_operation self (fun A run =>
    every_response net run P -> outcome (run net) = Raise e).
Proof.
  intros Hchecked. apply every_operation_intro.
  - intros endpoint params H. rewrite base_request_outcome.
    by apply Hchecked, every_response_base_request.
  - intros A endpoint params k H.
    apply request_then_raises, Hchecked.
    exact (every_response_request_then self endpoint params k net P H).
Qed.

(** After an accepted response an operation returns what its return
    expression makes of the decoded JSON. *)
Lemma request_then_accepted {A : Type} (self : Sentipy.t) endpoint params
    (k : pyval -> result A) net j :
  every_response net
    (Sentipy.base_request self endpoint params ≫= fun r => lift (k r))
    (accepted j) ->
  outcome ((Sentipy.base_request self endpoint params ≫= fun r => lift (k r)) net)
  = k j.
Proof.
  intros H. apply every_response_request_then, checked_accepted in H.
  rewrite request_then_outcome, H. reflexivity.
Qed.

(** X3. [__base_request] returns a value exactly when the response body is
    well-formed UTF-8 other than the two credential-failure strings, decodes
    as JSON and comes with a status that is no error; the value is then the
    decoded JSON, unchanged. *)
Theorem base_request_returns_iff
    (self : Sentipy.t) (endpoint : string)
    (params : option (gmap string pyval)) (net : Request -> Response)
    (j : pyval) :
  outcome (Sentipy.base_request self endpoint params net) = Ok j <->
  every_response net (Sentipy.base_request self endpoint params) (accepted j).
Proof.
  rewrite base_request_outcome. split.
  - intros H rq Hrq. rewrite base_request_sent in Hrq.
    apply list_elem_of_singleton in Hrq as ->. by apply checked_Ok.
  - intros H. by apply checked_accepted, every_response_base_request.
Qed.

(** X4. When the response carries an error status and its body is
    well-formed UTF-8, is neither credential-failure string and decodes to
    a JSON mapping, the request mechanics and every public operation raise
    [Exception(json.get("message"))]: the service's message, or [None] when
    the mapping has none. *)
Theorem error_status_raises_message
    (self : Sentipy.t) (net : Request -> Response) (d : gmap string pyval) :
  every_operation self (fun A run =>
    every_response net run (refused (PDict d)) ->
    outcome (run net) =
      Raise (Exception match d !! "message" with
                       | Some message => message
                       | None => PNone
                       end)).
Proof. apply every_operation_raises. intros r. apply checked_refused. Qed.

Lemma error_response_refused : refused (PDict error_reply) error_response.
Proof.
  eexists. split; [vm_compute; reflexivity|].
  split; [discriminate|]. split; [discriminate|]. split; reflexivity.
Defined.

Lemma error_status_raises_message_witness :
  outcome (Sentipy.parsed example_client "SNTPY" (always error_response)) =
    Raise (Exception (PStr "Symbol not found")) /\
  outcome (Sentipy.all_stocks example_client (always error_response)) =
    Raise (Exception (PStr "Symbol not found")).
Proof.
  destruct (error_status_raises_message example_client (always error_response)
              error_reply) as (_ & Hparsed & _ & _ & _ & _ & _ & _ & _ & Hall).
  split.
  - apply (Hparsed "SNTPY"). intros rq _. apply error_response_refused.
  - apply Hall. intros rq _. apply error_response_refused.
Defined.

(** X5. When the response body is not well-formed UTF-8, the request
    mechanics and every public operation raise [UnicodeDecodeError],
    whatever the status and whatever the JSON decoder would make of the
    body. *)
Theorem non_utf8_body_raises
    (self : Sentipy.t) (net : Request -> Response) :
  every_operation self (fun A run =>
    every_response net run (fun r => utf8_valid (content r) = false) ->
    outcome (run net) = Raise UnicodeDecodeError).
Proof. apply every_operation_raises. intros r. apply checked_not_utf8. Qed.

Lemma non_utf8_body_raises_witness :
  outcome (Sentipy.sort example_client "AHI" 4 (always garbled_response)) =
    Raise UnicodeDecodeError /\
  outcome (Sentipy.base_request example_client "sort" None
             (always garbled_response)) = Raise UnicodeDecodeError.
Proof.
  destruct (non_utf8_body_raises example_client (always garbled_response))
    as (Hbase & _ & _ & _ & Hsort & _).
  split.
  - apply (Hsort "AHI" 4). intros rq _. reflexivity.
  - apply (Hbase "sort" None). intros rq _. reflexivity.
Defined.

(** ** Replies without data *)

Ltac accepted_reply H :=
  erewrite request_then_accepted by exact H.

(** X6. Every public operation treats a reply whose ['success'] is falsy
    like one whose ['success'] is false: a mapping with no ['success'] key
    at all, or with [null], [0], an empty string, list or mapping under it,
    gives [None] and raises nothing, whatever else the mapping holds. *)
Theorem falsy_success_gives_none
    (self : Sentipy.t) (net : Request -> Response) (resp : gmap string pyval) :
  py_truthy (field resp "success") = false ->
  (forall symbol,
     every_response net (Sentipy.parsed self symbol) (accepted (PDict resp)) ->
     outcome (Sentipy.parsed self symbol net) = Ok None) /\
  (forall symbol,
     every_response net (Sentipy.raw self symbol) (accepted (PDict resp)) ->
     outcome (Sentipy.raw self symbol net) = Ok None) /\
  (forall symbol enrich,
     every_response net (Sentipy.quote self symbol enrich)
       (accepted (PDict resp)) ->
     outcome (Sentipy.quote self symbol enrich net) = Ok None) /\
  (forall metric limit,
     every_response net (Sentipy.sort self metric limit)
       (accepted (PDict resp)) ->
     outcome (Sentipy.sort self metric limit net) = Ok None) /\
  (forall symbol metric start end_,
     every_response net (Sentipy.historical self symbol metric start end_)
       (accepted (PDict resp)) ->
     outcome (Sentipy.historical self symbol metric start end_ net) = Ok None) /\
  (forall symbols enrich,
     every_response net (Sentipy.bulk self symbols enrich)
       (accepted (PDict resp)) ->
     outcome (Sentipy.bulk self symbols enrich net) = Ok None) /\
  (forall enrich,
     every_response net (Sentipy.all self enrich) (accepted (PDict resp)) ->
     outcome (Sentipy.all self enrich net) = Ok None) /\
  (forall symbol,
     every_response net (Sentipy.supported self symbol)
       (accepted (PDict resp)) ->
     outcome (Sentipy.supported self symbol net) = Ok PNone) /\
  (every_response net (Sentipy.all_stocks self) (accepted (PDict resp)) ->
   outcome (Sentipy.all_stocks self net) = Ok None).
Proof.
  intros Hfalsy.
  assert (Hq : Sentipy.quote_of (PDict resp) = Ok None).
  { unfold Sentipy.quote_of.
    by rewrite (py_get_dict resp "success"), bind_Ok, Hfalsy. }
  assert (Ht : Sentipy.tickers_of (PDict resp) = Ok None).
  { unfold Sentipy.tickers_of.
    by rewrite (py_get_dict resp "success"), bind_Ok, Hfalsy. }
  split.
  { intros symbol H. unfold Sentipy.parsed. accepted_reply H.
    by rewrite (py_get_dict resp "success"), bind_Ok, Hfalsy. }
  split; [intros symbol H; unfold Sentipy.raw; by accepted_reply H|].
  split; [intros symbol enrich H; unfold Sentipy.quote; by accepted_reply H|].
  split; [intros metric limit H; unfold Sentipy.sort; by accepted_reply H|].
  split.
  { intros symbol metric start end_ H. unfold Sentipy.historical.
    accepted_reply H.
    by rewrite (py_get_dict resp "success"), bind_Ok, Hfalsy. }
  split; [intros symbols enrich H; unfold Sentipy.bulk; by accepted_reply H|].
  split; [intros enrich H; unfold Sentipy.all; by accepted_reply H|].
  split.
  { intros symbol H. unfold Sentipy.supported. accepted_reply H.
    by rewrite (py_get_dict resp "success"), bind_Ok, Hfalsy. }
  intros H. unfold Sentipy.all_stocks. accepted_reply H.
  by rewrite (py_get_dict resp "success"), bind_Ok, Hfalsy.
Qed.

Lemma empty_response_accepted : accepted (PDict empty_reply) empty_response.
Proof.
  eexists. split; [vm_compute; reflexivity|].
  split; [discriminate|]. split; [discriminate|]. split; reflexivity.
Defined.

Lemma falsy_success_gives_none_witness :
  outcome (Sentipy.parsed example_client "AAPL" (always empty_response)) = Ok None /\
  outcome (Sentipy.bulk example_client ["AAPL"; "TSLA"] true
             (always empty_response)) = Ok None /\
  outcome (Sentipy.supported example_client "AAPL" (always empty_response)) =
    Ok PNone.
Proof.
  destruct (falsy_success_gives_none example_client (always empty_response)
              empty_reply eq_refl)
    as (Hparsed & _ & _ & _ & _ & Hbulk & _ & Hsup & _).
  split; [|split].
  - apply Hparsed. intros rq _. apply empty_response_accepted.
  - apply Hbulk. intros rq _. apply empty_response_accepted.
  - apply Hsup. intros rq _. apply empty_response_accepted.
Defined.

Lemma py_get_not_dict (j : pyval) (k : string) :
  (forall d, j <> PDict d) -> py_get j k = Raise (AttributeError "get").
Proof. intros H. destruct j; try reflexivity. by destruct (H d). Qed.

(** X7. When the accepted response decodes to JSON that is not a mapping
    (a list, a string, a number, [null]), every public operation raises
    [AttributeError]: each starts with [response.get("success")]. *)
Theorem non_mapping_reply_raises
    (self : Sentipy.t) (net : Request -> Response) (j : pyval) :
  (forall d, j <> PDict d) ->
  every_public_operation self (fun A run =>
    every_response net run (accepted j) ->
    outcome (run net) = Raise (AttributeError "get")).
Proof.
  intros Hj. pose proof (py_get_not_dict j "success" Hj) as Hget.
  assert (Hq : Sentipy.quote_of j = Raise (AttributeError "get")).
  { unfold Sentipy.quote_of. by rewrite Hget. }
  assert (Ht : Sentipy.tickers_of j = Raise (AttributeError "get")).
  { unfold Sentipy.tickers_of. by rewrite Hget. }
  unfold every_public_operation.
  split; [intros symbol H; unfold Sentipy.parsed; accepted_reply H;
          by rewrite Hget|].
  split; [intros symbol H; unfold Sentipy.raw; by accepted_reply H|].
  split; [intros symbol enrich H; unfold Sentipy.quote; by accepted_reply H|].
  split; [intros metric limit H; unfold Sentipy.sort; by accepted_reply H|].
  split; [intros symbol metric start end_ H; unfold Sentipy.historical;
          accepted_reply H; by rewrite Hget|].
  split; [intros symbols enrich H; unfold Sentipy.bulk; by accepted_reply H|].
  split; [intros enrich H; unfold Sentipy.all; by accepted_reply H|].
  split; [intros symbol H; unfold Sentipy.supported; accepted_reply H;
          by rewrite Hget|].
  intros H. unfold Sentipy.all_stocks. accepted_reply H. by rewrite Hget.
Qed.

Lemma list_response_accepted : accepted (PList []) list_response.
Proof.
  eexists. split; [vm_compute; reflexivity|].
  split; [discriminate|]. split; [discriminate|]. split; reflexivity.
Defined.

Lemma non_mapping_reply_raises_witness :
  outcome (Sentipy.all_stocks example_client (always list_response)) =
    Raise (AttributeError "get") /\
  outcome (Sentipy.quote example_client "AAPL" false (always list_response)) =
    Raise (AttributeError "get").
Proof.
  destruct (non_mapping_reply_raises example_client (always list_response)
              (PList []) ltac:(discriminate))
    as (_ & _ & Hquote & _ & _ & _ & _ & _ & Hall).
  split.
  - apply Hall. intros rq _. apply list_response_accepted.
  - apply (Hquote "AAPL" false). intros rq _. apply list_response_accepted.
Defined.

Lemma hollow_response_accepted : accepted (PDict hollow_reply) hollow_response.
Proof.
  eexists. split; [vm_compute; reflexivity|].
  split; [discriminate|]. split; [discriminate|]. split; reflexivity.
Defined.

(** X8. On a successful reply that has no ['results'] (or [null] under
    it), [parsed], [raw] and [quote] raise [AttributeError] from the record
    constructor, and [sort], [historical], [bulk], [all] and [all_stocks]
    raise [TypeError] from iterating over [None]: none of them returns the
    "no result" value. *)
Theorem success_without_results_raises
    (self : Sentipy.t) (net : Request -> Response) (resp : gmap string pyval) :
  py_truthy (field resp "success") = true ->
  field resp "results" = PNone ->
  (forall symbol,
     every_response net (Sentipy.parsed self symbol) (accepted (PDict resp)) ->
     outcome (Sentipy.parsed self symbol net) = Raise (AttributeError "get")) /\
  (forall symbol,
     every_response net (Sentipy.raw self symbol) (accepted (PDict resp)) ->
     outcome (Sentipy.raw self symbol net) = Raise (AttributeError "get")) /\
  (forall symbol enrich,
     every_response net (Sentipy.quote self symbol enrich)
       (accepted (PDict resp)) ->
     outcome (Sentipy.quote self symbol enrich net) =
       Raise (AttributeError "get")) /\
  (forall metric limit,
     every_response net (Sentipy.sort self metric limit)
       (accepted (PDict resp)) ->
     outcome (Sentipy.sort self metric limit net) = Raise TypeError) /\
  (forall symbol metric start end_,
     every_response net (Sentipy.historical self symbol metric start end_)
       (accepted (PDict resp)) ->
     outcome (Sentipy.historical self symbol metric start end_ net) =
       Raise TypeError) /\
  (forall symbols enrich,
     every_response net (Sentipy.bulk self symbols enrich)
       (accepted (PDict resp)) ->
     outcome (Sentipy.bulk self symbols enrich net) = Raise TypeError) /\
  (forall enrich,
     every_response net (Sentipy.all self enrich) (accepted (PDict resp)) ->
     outcome (Sentipy.all self enrich net) = Raise TypeError) /\
  (every_response net (Sentipy.all_stocks self) (accepted (PDict resp)) ->
   outcome (Sentipy.all_stocks self net) = Raise TypeError).
Proof.
  intros Hsuccess Hresults.
  assert (Hq : Sentipy.quote_of (PDict resp) = Raise (AttributeError "get")).
  { unfold Sentipy.quote_of.
    rewrite (py_get_dict resp "success"), bind_Ok, Hsuccess.
    by rewrite !py_get_dict, !bind_Ok, Hresults. }
  assert (Ht : Sentipy.tickers_of (PDict resp) = Raise TypeError).
  { unfold Sentipy.tickers_of.
    rewrite (py_get_dict resp "success"), bind_Ok, Hsuccess.
    by rewrite py_get_dict, bind_Ok, Hresults. }
  split.
  { intros symbol H. unfold Sentipy.parsed. accepted_reply H.
    rewrite (py_get_dict resp "success"), bind_Ok, Hsuccess.
    by rewrite !py_get_dict, !bind_Ok, Hresults. }
  split; [intros symbol H; unfold Sentipy.raw; by accepted_reply H|].
  split; [intros symbol enrich H; unfold Sentipy.quote; by accepted_reply H|].
  split; [intros metric limit H; unfold Sentipy.sort; by accepted_reply H|].
  split.
  { intros symbol metric start end_ H. unfold Sentipy.historical.
    accepted_reply H.
    rewrite (py_get_dict resp "success"), bind_Ok, Hsuccess.
    by rewrite py_get_dict, bind_Ok, Hresults. }
  split; [intros symbols enrich H; unfold Sentipy.bulk; by accepted_reply H|].
  split; [intros enrich H; unfold Sentipy.all; by accepted_reply H|].
  intros H. unfold Sentipy.all_stocks. accepted_reply H.
  rewrite (py_get_dict resp "success"), bind_Ok, Hsuccess.
  by rewrite py_get_dict, bind_Ok, Hresults.
Qed.

Lemma success_without_results_raises_witness :
  outcome (Sentipy.parsed example_client "AAPL" (always hollow_response)) =
    Raise (AttributeError "get") /\
  outcome (Sentipy.sort example_client "AHI" 4 (always hollow_response)) =
    Raise TypeError.
Proof.
  destruct (success_without_results_raises example_client
              (always hollow_response) hollow_reply eq_refl eq_refl)
    as (Hparsed & _ & _ & Hsort & _).
  split.
  - apply Hparsed. intros rq _. apply hollow_response_accepted.
  - apply Hsort. intros rq _. apply hollow_response_accepted.
Defined.

(** X9. [supported] never raises once the response is accepted and decodes
    to a mapping: it returns the value under ['result'] when ['success'] is
    truthy ([None] if the mapping has no ['result']) and [None] otherwise. *)
Theorem supported_returns_result
    (self : Sentipy.t) (net : Request -> Response) (symbol : string)
    (resp : gmap string pyval) :
  every_response net (Sentipy.supported self symbol) (accepted (PDict resp)) ->
  outcome (Sentipy.supported self symbol net) =
  Ok (if py_truthy (field resp "success")
      then match resp !! "result" with
           | Some v => v
           | None => PNone
           end
      else PNone).
Proof.
  intros H. unfold Sentipy.supported. accepted_reply H.
  rewrite (py_get_dict resp "success"), bind_Ok.
  destruct (py_truthy (field resp "success")); [|reflexivity].
  apply py_get_dict.
Qed.

Lemma supported_returns_result_witness :
  outcome (Sentipy.supported example_client "AAPL" (always supported_response)) =
  Ok (PBool true).
Proof.
  apply (supported_returns_result example_client (always supported_response)
           "AAPL" supported_reply).
  intros rq _. eexists. split; [vm_compute; reflexivity|].
  split; [discriminate|]. split; [discriminate|]. split; reflexivity.
Defined.

(** ** Lists of records *)

Lemma ranking_response_accepted :
  accepted (PDict ranking_reply) ranking_response.
Proof.
  eexists. split; [vm_compute; reflexivity|].
  split; [discriminate|]. split; [discriminate|]. split; reflexivity.
Defined.

(** X10. [all] keeps the order of the service like [sort] and [bulk]: on a
    successful reply whose results are a list of n mappings it returns n
    records in that order, the i-th built from the i-th mapping with that
    mapping's own ['symbol']; an empty list gives an empty list, not
    [None]. *)
Theorem all_keeps_service_order
    (self : Sentipy.t) (net : Request -> Response) (enrich : bool)
    (resp : gmap string pyval) (entries : list (gmap string pyval)) :
  every_response net (Sentipy.all self enrich) (accepted (PDict resp)) ->
  py_truthy (field resp "success") = true ->
  resp !! "results" = Some (PList (PDict <$> entries)) ->
  tickers_in_order entries (outcome (Sentipy.all self enrich net)).
Proof.
  intros H Hsuccess Hresults. unfold Sentipy.all. accepted_reply H.
  by apply tickers_of_success.
Qed.

Lemma all_keeps_service_order_witness :
  tickers_in_order example_ranking
    (outcome (Sentipy.all example_client false (always ranking_response))).
Proof.
  apply (all_keeps_service_order example_client (always ranking_response)
           false ranking_reply example_ranking).
  - intros rq _. apply ranking_response_accepted.
  - reflexivity.
  - reflexivity.
Defined.

Lemma mapM_tickers_cases (l : list pyval) :
  (Forall (fun v => exists d, v = PDict d) l /\
   exists data,
     mapM (fun stock => sym ← py_get stock "symbol"; TickerData.init sym stock) l
     = Ok data /\ length data = length l) \/
  (~ Forall (fun v => exists d, v = PDict d) l /\
   mapM (fun stock => sym ← py_get stock "symbol"; TickerData.init sym stock) l
   = Raise (AttributeError "get")).
Proof.
  induction l as [|v l IH].
  - left. split; [constructor|]. by exists [].
  - assert (Hcase : (exists d, v = PDict d) \/ forall d, v <> PDict d).
    { destruct v; try (right; discriminate). left. eauto. }
    destruct Hcase as [[d ->]|Hv].
    + cbn [mapM]. rewrite py_get_dict, bind_Ok, TickerData_init_dict, bind_Ok.
      destruct IH as [[Hall (data & -> & Hlen)]|[Hnot ->]].
      * left. split; [constructor; eauto|].
        eexists. split; [reflexivity|]. simpl. by rewrite Hlen.
      * right. split; [|reflexivity].
        intros Hall. apply Hnot. by inversion Hall.
    + right. split.
      * intros Hall. apply Forall_cons in Hall as [[d Hd] _]. by destruct (Hv d).
      * cbn [mapM]. by rewrite (py_get_not_dict v "symbol" Hv).
Qed.

Lemma tickers_of_all_or_nothing (resp : gmap string pyval) (l : list pyval) :
  py_truthy (field resp "success") = true ->
  resp !! "results" = Some (PList l) ->
  all_or_nothing l (Sentipy.tickers_of (PDict resp)).
Proof.
  intros Hsuccess Hresults.
  assert (Hunfold : Sentipy.tickers_of (PDict resp) =
    (data ← mapM (fun stock => sym ← py_get stock "symbol";
                               TickerData.init sym stock) l;
     Ok (Some data))).
  { unfold Sentipy.tickers_of.
    rewrite (py_get_dict resp "success"), bind_Ok, Hsuccess.
    rewrite py_get_dict, bind_Ok. unfold field. rewrite Hresults.
    reflexivity. }
  rewrite Hunfold.
  destruct (mapM_tickers_cases l) as [[Hall (data & -> & Hlen)]|[Hnot ->]].
  - split; [intros _; by exists data|]. intros Hnot. by destruct Hnot.
  - split; [intros Hall; by destruct Hnot|]. reflexivity.
Qed.

(** X11. [sort], [bulk] and [all] return all the records or none: on a
    successful reply whose results are a list, the call returns one record
    per element when every element is a mapping, and raises
    [AttributeError] as soon as one element is not, without a partial
    list. *)
Theorem ticker_lists_all_or_nothing
    (self : Sentipy.t) (net : Request -> Response)
    (resp : gmap string pyval) (l : list pyval) :
  py_truthy (field resp "success") = true ->
  resp !! "results" = Some (PList l) ->
  (forall metric limit,
     every_response net (Sentipy.sort self metric limit)
       (accepted (PDict resp)) ->
     all_or_nothing l (outcome (Sentipy.sort self metric limit net))) /\
  (forall symbols enrich,
     every_response net (Sentipy.bulk self symbols enrich)
       (accepted (PDict resp)) ->
     all_or_nothing l (outcome (Sentipy.bulk self symbols enrich net))) /\
  (forall enrich,
     every_response net (Sentipy.all self enrich) (accepted (PDict resp)) ->
     all_or_nothing l (outcome (Sentipy.all self enrich net))).
Proof.
  intros Hsuccess Hresults.
  pose proof (tickers_of_all_or_nothing resp l Hsuccess Hresults) as Hall.
  split; [intros metric limit H; unfold Sentipy.sort; by accepted_reply H|].
  split; [intros symbols enrich H; unfold Sentipy.bulk; by accepted_reply H|].
  intros enrich H. unfold Sentipy.all. by accepted_reply H.
Qed.

Lemma ticker_lists_all_or_nothing_witness :
  outcome (Sentipy.sort example_client "AHI" 3 (always holed_response)) =
  Raise (AttributeError "get").
Proof.
  destruct (ticker_lists_all_or_nothing example_client (always holed_response)
              holed_reply holed_results eq_refl eq_refl) as (Hsort & _).
  apply (Hsort "AHI" 3).
  - intros rq _. eexists. split; [vm_compute; reflexivity|].
    split; [discriminate|]. split; [discriminate|]. split; reflexivity.
  - intros Hall. apply Forall_cons in Hall as [_ Hall].
    apply Forall_cons in Hall as [[d Hd] _]. discriminate.
Defined.

(** X12. On a successful reply whose ['results'] are a mapping, [parsed]
    returns the record whose [symbol] is the envelope's and whose
    [sentiment], [AHI], [RHI] and [SGP] are the values under those names in
    the results, each [None] when the results lack it; other keys of the
    results are ignored. *)
Theorem parsed_returns_core_metrics
    (self : Sentipy.t) (net : Request -> Response) (symbol : string)
    (resp results : gmap string pyval) :
  every_response net (Sentipy.parsed self symbol) (accepted (PDict resp)) ->
  py_truthy (field resp "success") = true ->
  resp !! "results" = Some (PDict results) ->
  outcome (Sentipy.parsed self symbol net) =
  Ok (Some (TickerData.mk (field resp "symbol")
                          (field results "sentiment") (field results "AHI")
                          (field results "RHI") (field results "SGP"))).
Proof.
  intros H Hsuccess Hresults. unfold Sentipy.parsed. accepted_reply H.
  rewrite (py_get_dict resp "success"), bind_Ok, Hsuccess.
  rewrite !py_get_dict, !bind_Ok. unfold field at 2. rewrite Hresults.
  by rewrite TickerData_init_dict.
Qed.

Lemma parsed_returns_core_metrics_witness :
  outcome (Sentipy.parsed example_client "aapl" (always quote_response)) =
  Ok (Some (TickerData.mk (PStr "AAPL") PNone (PFloat float_0_5) PNone PNone)).
Proof.
  rewrite (parsed_returns_core_metrics example_client (always quote_response)
             "aapl" quote_reply {[ "AHI" := PFloat float_0_5 ]}).
  - vm_compute. reflexivity.
  - intros rq _. eexists. split; [vm_compute; reflexivity|].
    split; [discriminate|]. split; [discriminate|]. split; reflexivity.
  - reflexivity.
  - reflexivity.
Defined.

(** ** Quote records *)



Lemma field_dict (d m : gmap string pyval) (k : string) :
  field d k = PDict m -> d !! k = Some (PDict m).
Proof. unfold field. destruct (d !! k); [by intros ->|discriminate]. Qed.

Lemma subreddits_processed_Ok (results : gmap string pyval) subs :
  QuoteData.subreddits_processed (PDict results) = Ok subs ->
  results !! "subreddits" = None \/
  exists sub m s,
    results !! "subreddits" = Some (PDict sub) /\
    sub !! "reddit_subreddit_mentions" = Some (PDict m) /\
    sub !! "reddit_subreddit_sentiment" = Some (PDict s).
Proof.
  unfold QuoteData.subreddits_processed. cbn [py_contains]. rewrite bind_Ok.
  destruct (results !! "subreddits") as [v|] eqn:Hsub; [|by left].
  rewrite bool_decide_true by eauto. intros H. right.
  rewrite py_get_dict, bind_Ok in H. unfold field in H. rewrite Hsub in H.
  destruct v as [| | | | | |sub]; try discriminate.
  rewrite !py_get_dict, !bind_Ok in H.
  destruct (field sub "reddit_subreddit_mentions") as [| | | | | |m] eqn:Hm;
    try discriminate.
  destruct (field sub "reddit_subreddit_sentiment") as [| | | | | |s] eqn:Hs;
    try discriminate.
  exists sub, m, s. split; [reflexivity|]. by split; apply field_dict.
Qed.

(** X14. On a result mapping, [QuoteData.__init__] succeeds exactly when
    the mapping has no ['subreddits'] key, or has under it a mapping that
    holds a mapping under both ['reddit_subreddit_mentions'] and
    ['reddit_subreddit_sentiment']; a [null], a list or a bare mapping
    under ['subreddits'] makes it raise. *)
Theorem quote_data_succeeds_iff (symbol : pyval) (results : gmap string pyval) :
  (exists q, QuoteData.init symbol (PDict results) = Ok q) <->
  (results !! "subreddits" = None \/
   exists sub m s,
     results !! "subreddits" = Some (PDict sub) /\
     sub !! "reddit_subreddit_mentions" = Some (PDict m) /\
     sub !! "reddit_subreddit_sentiment" = Some (PDict s)).
Proof.
  split.
  - intros [q Hq].
    destruct (QuoteData.subreddits_processed (PDict results)) as [subs|e]
      eqn:Hsubs.
    + by apply subreddits_processed_Ok in Hsubs.
    + rewrite (QuoteData_init_raises _ _ _ Hsubs) in Hq. discriminate.
  - intros [Hnone|(sub & m & s & Hsub & Hm & Hs)].
    + eexists. apply QuoteData_init_dict.
      by apply subreddits_processed_absent.
    + destruct (subreddits_processed_both results sub m s Hsub Hm Hs)
        as (out & Hout & _).
      eexists. apply (QuoteData_init_dict _ _ _ Hout).
Qed.

(** ** Historical data *)






Lemma fold_unhashable_data_point (entries : list (gmap string pyval)) :
  Exists (fun e => py_key (field e "timestamp") = None) entries ->
  forall acc : pydict,
    foldM Sentipy.data_point acc (PDict <$> entries) = Raise TypeError.
Proof.
  induction entries as [|e entries IH]; intros Hex acc; [by inversion Hex|].
  cbn [fmap list_fmap foldM].
  destruct (py_key (field e "timestamp")) as [c|] eqn:Hc.
  - rewrite (data_point_dict acc e c Hc), bind_Ok. apply IH.
    apply Exists_cons in Hex as [Hhead|Htail]; [congruence|exact Htail].
  - unfold Sentipy.data_point, dict_setitem.
    by rewrite !py_get_dict, !bind_Ok, Hc.
Qed.

(** X16. On a successful [historical] reply whose results are a list of
    mappings, when some entry has a list or a mapping as its ['timestamp']
    the call raises [TypeError] (the value cannot be a dict key) and
    returns no part of the mapping. *)
Theorem historical_unhashable_timestamp_raises
    (self : Sentipy.t) (net : Request -> Response)
    (symbol metric : string) (start end_ : Z)
    (resp : gmap string pyval) (entries : list (gmap string pyval)) :
  every_response net (Sentipy.historical self symbol metric start end_)
    (accepted (PDict resp)) ->
  py_truthy (field resp "success") = true ->
  resp !! "results" = Some (PList (PDict <$> entries)) ->
  Exists (fun e => (exists l, field e "timestamp" = PList l) \/
                   (exists d, field e "timestamp" = PDict d)) entries ->
  outcome (Sentipy.historical self symbol metric start end_ net) =
  Raise TypeError.
Proof.
  intros H Hsuccess Hresults Hex.
  unfold Sentipy.historical. accepted_reply H.
  rewrite (py_get_dict resp "success"), bind_Ok, Hsuccess.
  rewrite py_get_dict, bind_Ok. unfold field at 1. rewrite Hresults.
  cbn [py_iter]. rewrite bind_Ok, fold_unhashable_data_point; [reflexivity|].
  eapply Exists_impl; [exact Hex|].
  intros e [[l ->]|[d ->]]; reflexivity.
Qed.

Lemma historical_unhashable_timestamp_raises_witness :
  outcome (Sentipy.historical example_client "AAPL" "RHI" 1614556869 1619654469
             (always unhashable_response)) = Raise TypeError.
Proof.
  apply (historical_unhashable_timestamp_raises example_client
           (always unhashable_response) "AAPL" "RHI" 1614556869 1619654469
           unhashable_reply unhashable_entries).
  - intros rq _. eexists. split; [vm_compute; reflexivity|].
    split; [discriminate|]. split; [discriminate|]. split; reflexivity.
  - reflexivity.
  - reflexivity.
  - right. left. left. exists [PInt 1618057166]. reflexivity.
Defined.

(** ** The set of stocks *)

Lemma set_store_elem (c : hkey) (k x : pyval) (s : pyset) :
  x ∈ set_store c k s -> x = k \/ x ∈ s.
Proof.
  induction s as [|k0 s IH]; simpl.
  - intros Hin. apply list_elem_of_singleton in Hin. by left.
  - destruct (bool_decide (py_key k0 = Some c)); intros Hin; [by right|].
    apply elem_of_cons in Hin as [->|Hin]; [right; left|].
    destruct (IH Hin) as [->|Hs]; [by left|]. right. by right.
Qed.

Lemma set_store_incl (c : hkey) (k x : pyval) (s : pyset) :
  x ∈ s -> x ∈ set_store c k s.
Proof.
  induction s as [|k0 s IH]; simpl; intros Hin; [by inversion Hin|].
  destruct (bool_decide (py_key k0 = Some c)); [exact Hin|].
  apply elem_of_cons in Hin as [->|Hin]; [left|right; by apply IH].
Qed.

Lemma set_store_has (c : hkey) (k : pyval) (s : pyset) :
  py_key k = Some c ->
  exists y, y ∈ set_store c k s /\ py_key y = Some c.
Proof.
  intros Hk. induction s as [|k0 s (y & Hy & Hc)]; simpl.
  - exists k. split; [left|exact Hk].
  - destruct (decide (py_key k0 = Some c)) as [H0|H0].
    + rewrite (bool_decide_true _ H0). exists k0. split; [left|exact H0].
    + rewrite (bool_decide_false _ H0). exists y. split; [by right|exact Hc].
Qed.

Lemma set_store_keys (c : hkey) (k : pyval) (s : pyset) :
  py_key k = Some c ->
  NoDup (py_key <$> s) -> NoDup (py_key <$> set_store c k s).
Proof.
  intros Hk. induction s as [|k0 s IH]; simpl; intros Hnd.
  - apply NoDup_singleton.
  - apply NoDup_cons in Hnd as [Hfresh Hnd].
    destruct (decide (py_key k0 = Some c)) as [H0|H0].
    + rewrite (bool_decide_true _ H0). simpl. by apply NoDup_cons.
    + rewrite (bool_decide_false _ H0). simpl. apply NoDup_cons.
      split; [|by apply IH].
      intros Hin. apply list_elem_of_fmap in Hin as (y & Hy & Hin).
      apply set_store_elem in Hin as [->|Hin]; [congruence|].
      apply Hfresh. rewrite Hy. by apply list_elem_of_fmap_2.
Qed.

Lemma fold_set_add (l : list pyval) :
  Forall (fun v => is_Some (py_key v)) l ->
  forall acc : pyset,
    NoDup (py_key <$> acc) ->
    exists s,
      foldM set_add acc l = Ok s /\
      NoDup (py_key <$> s) /\
      (forall x, x ∈ s -> x ∈ acc \/ x ∈ l) /\
      (forall x, x ∈ acc \/ x ∈ l -> exists y, y ∈ s /\ py_key y = py_key x).
Proof.
  induction 1 as [|v l [c Hc] _ IH]; intros acc Hnd.
  - exists acc. split; [reflexivity|]. split; [exact Hnd|].
    split; [by left|]. intros x [Hx|Hx]; [eauto|by inversion Hx].
  - destruct (IH (set_store c v acc)) as (s & Hfold & Hnd' & Hfrom & Hinto).
    { by apply set_store_keys. }
    exists s. split; [|split; [exact Hnd'|split]].
    + cbn [foldM].
      assert (Hadd : set_add acc v = Ok (set_store c v acc)).
      { unfold set_add. by rewrite Hc. }
      rewrite Hadd, bind_Ok. exact Hfold.
    + intros x Hx. destruct (Hfrom x Hx) as [Hacc|Hl]; [|right; by right].
      apply set_store_elem in Hacc as [->|Hacc]; [right; left|by left].
    + intros x [Hx|Hx].
      * apply Hinto. left. by apply set_store_incl.
      * apply elem_of_cons in Hx as [->|Hx]; [|apply Hinto; by right].
        destruct (set_store_has c v acc Hc) as (y & Hy & Hyc).
        destruct (Hinto y (or_introl Hy)) as (z & Hz & Hzy).
        exists z. split; [exact Hz|congruence].
Qed.

(** X17. On a successful reply whose results are a list of symbol strings,
    [all_stocks] returns a set with every symbol of the list and nothing
    else, each once however often the list repeats it. *)
Theorem all_stocks_unique_symbols
    (self : Sentipy.t) (net : Request -> Response)
    (resp : gmap string pyval) (names : list string) :
  every_response net (Sentipy.all_stocks self) (accepted (PDict resp)) ->
  py_truthy (field resp "success") = true ->
  resp !! "results" = Some (PList (PStr <$> names)) ->
  exists s,
    outcome (Sentipy.all_stocks self net) = Ok (Some s) /\
    NoDup s /\
    (forall v, v ∈ s <-> exists name, v = PStr name /\ name ∈ names).
Proof.
  intros H Hsuccess Hresults.
  destruct (fold_set_add (PStr <$> names)) with (acc := @nil pyval)
    as (s & Hfold & Hnd & Hfrom & Hinto).
  { apply Forall_fmap, Forall_forall. intros name _. simpl. eauto. }
  { constructor. }
  exists s. split; [|split].
  - unfold Sentipy.all_stocks. accepted_reply H.
    rewrite (py_get_dict resp "success"), bind_Ok, Hsuccess.
    rewrite py_get_dict, bind_Ok. unfold field. rewrite Hresults.
    unfold py_set. cbn [py_iter]. by rewrite bind_Ok, Hfold.
  - by apply NoDup_fmap_1 in Hnd.
  - intros v. split.
    + intros Hv. destruct (Hfrom v Hv) as [Hnil|Hl]; [by inversion Hnil|].
      apply list_elem_of_fmap in Hl as (name & -> & Hname). eauto.
    + intros (name & -> & Hname).
      destruct (Hinto (PStr name)) as (y & Hy & Hkey).
      { right. by apply list_elem_of_fmap_2. }
      destruct (Hfrom y Hy) as [Hnil|Hl]; [by inversion Hnil|].
      apply list_elem_of_fmap in Hl as (other & -> & _).
      simpl in Hkey. by injection Hkey as ->.
Qed.

Lemma all_stocks_unique_symbols_witness :
  exists s,
    outcome (Sentipy.all_stocks example_client (always stocks_response)) =
      Ok (Some s) /\
    NoDup s /\
    (forall v, v ∈ s <->
               exists name, v = PStr name /\ name ∈ ["AAPL"; "TSLA"; "AAPL"]).
Proof.
  apply (all_stocks_unique_symbols example_client (always stocks_response)
           stocks_reply ["AAPL"; "TSLA"; "AAPL"]).
  - intros rq _. eexists. split; [vm_compute; reflexivity|].
    split; [discriminate|]. split; [discriminate|]. split; reflexivity.
  - reflexivity.
  - reflexivity.
Defined.

(** ** Construction of the client *)

(** X18. Constructing a client raises [ValueError] exactly when the token
    or the key is missing; given both it succeeds and the client holds the
    two values unchanged, so that its requests carry them. *)
Theorem client_needs_token_and_key (token key : option string) :
  ((exists msg, Sentipy.init token key = Raise (ValueError msg)) <->
   token = None \/ key = None) /\
  (forall self,
     Sentipy.init token key = Ok self <->
     token = Some (Sentipy.token self) /\ key = Some (Sentipy.key self)).
Proof.
  split.
  - split.
    + intros [msg Hmsg]. destruct token, key; try discriminate; eauto.
    + intros [-> | ->]; [|destruct token]; simpl; eauto.
  - intros [t k]. simpl. split.
    + destruct token, key; try discriminate. by intros [= -> ->].
    + by intros [-> ->].
Qed.
